(** * A shallow embedding of [app.py]: the conversation store, the response
    generator and the session loop of the chat front-end.

    Python strings are modelled by [string], whose characters are read as the
    code points 0..255.  A message is the dictionary [{"role": r, "content": c}]
    that the application builds everywhere, modelled by the record [Message].
    The calls that only write to the console or to the page ([print],
    [st.title], [st.markdown], [st.caption], the typing placeholder) have no
    effect on the state the program reads back and are left out. *)

From Stdlib Require Import ZArith Lia Ascii String.
From stdpp Require Import gmap strings list fin_maps pretty.

Local Open Scope string_scope.
Local Open Scope Z_scope.
Local Open Scope list_scope.

(** ** Data model *)

(** [{"role": ..., "content": ...}] *)
Record Message := mkMessage { role : string; content : string }.

(** A Firestore document of the collection ["conversations"], as
    [doc.to_dict()] shows it: the field ["conversation"] (an array of
    messages) when it is present, and in [doc_others] the top-level fields of
    the record under every other name. *)
Record Document := mkDocument {
  doc_conversation : option (list Message);
  doc_others : gmap string string
}.

(** The request bodies handed to the two vendor SDKs. *)
Record OpenAIRequest := mkOpenAIRequest {
  oa_model : string;
  oa_messages : list Message;
  oa_temperature : Z
}.

Record AnthropicRequest := mkAnthropicRequest {
  an_model : string;
  an_max_tokens : Z;
  an_messages : list Message;
  an_system : string
}.

Inductive Request :=
| OpenAICall (r : OpenAIRequest)
| AnthropicCall (r : AnthropicRequest).

(** What the SDKs hand back: [response.choices[i].message] for OpenAI,
    [response.content[i].text] for Anthropic. *)
Record ChatCompletion := mkChatCompletion { choices : list Message }.
Record AnthropicMessage := mkAnthropicMessage { content_blocks : list string }.

(** The exceptions the program can raise.  [StopException] and
    [RerunException] are what [st.stop()] and [st.experimental_rerun()] raise
    to leave the script; [VendorError] stands for whatever an SDK raises
    (authentication, rate limit, network). *)
Inductive Exception :=
| FileNotFoundError
| JSONDecodeError
| KeyError (key : string)
| IndexError
| AttributeError (attr : string)
| TypeError
| ValueError (msg : string)
| VendorError (msg : string)
| StopException
| RerunException.

(** The file [prompts.json]: absent, not JSON text, a JSON value that is not
    an object, or a JSON object. *)
Inductive File :=
| Missing
| NotJson
| JsonOther
| JsonObject (fields : gmap string string).

(** [st.session_state]: each attribute is set or not. *)
Record SessionState := mkSessionState {
  user_id : option string;
  conversation : option (list Message);
  user_input_key : option Z
}.

(** The state the program runs in: the Firestore collection, the prompt file,
    the session state, the log of the requests sent to the vendors, and the
    two vendors themselves: what each answers to a request, given the
    requests made so far. *)
Record World := mkWorld {
  db : gmap string Document;
  prompts_json : File;
  session_state : SessionState;
  requests : list Request;
  openai_vendor : list Request -> OpenAIRequest -> Exception + ChatCompletion;
  anthropic_vendor : list Request -> AnthropicRequest -> Exception + AnthropicMessage
}.

(** What the browser reports for one run of the script: the value of the
    identifier field, the value of the text area of a given key, and whether
    the button was clicked. *)
Record UI := mkUI {
  text_input : string;
  text_area : string -> string;
  button : bool
}.

Definition set_db (f : gmap string Document -> gmap string Document) (w : World) : World :=
  mkWorld (f (db w)) (prompts_json w) (session_state w) (requests w)
    (openai_vendor w) (anthropic_vendor w).

Definition set_prompts_json (p : File) (w : World) : World :=
  mkWorld (db w) p (session_state w) (requests w)
    (openai_vendor w) (anthropic_vendor w).

Definition set_session_state (f : SessionState -> SessionState) (w : World) : World :=
  mkWorld (db w) (prompts_json w) (f (session_state w)) (requests w)
    (openai_vendor w) (anthropic_vendor w).

Definition set_requests (f : list Request -> list Request) (w : World) : World :=
  mkWorld (db w) (prompts_json w) (session_state w) (f (requests w))
    (openai_vendor w) (anthropic_vendor w).

(** ** The monad of the program: state and exceptions *)

Definition M (A : Type) : Type := World -> (Exception + A) * World.

Definition ret {A} (a : A) : M A := fun w => (inr a, w).

Definition raise {A} (e : Exception) : M A := fun w => (inl e, w).

Definition bind {A B} (m : M A) (k : A -> M B) : M B :=
  fun w => match m w with
           | (inr a, w') => k a w'
           | (inl e, w') => (inl e, w')
           end.

Declare Scope prog_scope.
Delimit Scope prog_scope with prog.
Notation "x <- m ;; k" := (bind m (fun x => k))
  (at level 100, m at next level, right associativity) : prog_scope.
Notation "m ;;; k" := (bind m (fun _ => k))
  (at level 100, right associativity) : prog_scope.
Local Open Scope prog_scope.

Definition when (b : bool) (m : M unit) : M unit := if b then m else ret tt.

(** ** Python strings *)

(** [str.isspace] on the code points below 256. *)
Definition isspace (c : ascii) : bool :=
  let n := nat_of_ascii c in
  ((9 <=? n) && (n <=? 13) || (28 <=? n) && (n <=? 32) || (n =? 133) || (n =? 160))%nat.

Fixpoint lstrip (s : string) : string :=
  match s with
  | String c s' => if isspace c then lstrip s' else s
  | EmptyString => EmptyString
  end.

Definition rstrip (s : string) : string := String.rev (lstrip (String.rev s)).

(** [s.strip()] *)
Definition strip (s : string) : string := rstrip (lstrip s).

(** Truth value of a string and of a list. *)
Definition str_bool (s : string) : bool :=
  match s with EmptyString => false | _ => true end.

Definition list_bool {A} (l : list A) : bool :=
  match l with [] => false | _ => true end.

(** ["\n" in s] *)
Fixpoint contains_newline (s : string) : bool :=
  match s with
  | String c s' => Ascii.eqb c "010"%char || contains_newline s'
  | EmptyString => false
  end.

(** ** Firestore

    The store is the collection ["conversations"], a map from the identifier
    of a document to the document.  Of the client, the model keeps the check
    it makes on the path of a document before any access: an identifier whose
    path has an odd number of elements is refused with a [ValueError].  The
    reads and writes of an accepted reference are taken to succeed. *)

(** [doc_ref.get()]: the snapshot is [None] when [doc.exists] is false and
    [Some d], with [d] the value of [doc.to_dict()], otherwise. *)
Definition doc_ref_get (doc_ref : string) : M (option Document) :=
  fun w => (inr (db w !! doc_ref), w).

(** The fields of [data] written over those of [old]. *)
Definition merge_fields (data old : Document) : Document :=
  mkDocument
    (match doc_conversation data with
     | Some c => Some c
     | None => doc_conversation old
     end)
    (doc_others data ∪ doc_others old).

(** [doc_ref.set(data, merge=merge)] *)
Definition doc_ref_set (doc_ref : string) (data : Document) (merge : bool) : M unit :=
  fun w =>
    let new :=
      if merge then
        match db w !! doc_ref with
        | Some old => merge_fields data old
        | None => data
        end
      else data in
    (inr tt, set_db (fun d => <[doc_ref := new]> d) w).

(** [s.split("/")] *)
Fixpoint split_slash (s : string) : list string :=
  match s with
  | EmptyString => [EmptyString]
  | String c s' =>
      if Ascii.eqb c "/"%char then EmptyString :: split_slash s'
      else
        match split_slash s' with
        | x :: xs => String c x :: xs
        | [] => [String c EmptyString]
        end
  end.

(** The path the client builds for [db.collection("conversations")
    .document(document_id)]: the name of the collection and the identifier
    joined by ["/"], split again at every ["/"]. *)
Definition document_path (document_id : string) : list string :=
  split_slash ("conversations" +:+ "/" +:+ document_id).

(** The client takes a path with an even number of elements for a document. *)
Definition accepted (document_id : string) : bool :=
  Nat.even (length (document_path document_id)).

Definition odd_path_error : Exception :=
  ValueError "A document must have an even number of path elements".

(** [db.collection("conversations").document(document_id)]: the client checks
    the path before any access to the store and raises on a path it does not
    take; the reference is kept as the identifier. *)
Definition document (document_id : string) : M string :=
  if accepted document_id then ret document_id else raise odd_path_error.

(** [d.get("conversation", [])] on the dictionary of a document. *)
Definition dict_get_conversation (d : Document) (dflt : list Message) : list Message :=
  match doc_conversation d with
  | Some c => c
  | None => dflt
  end.

Definition get_conversation (user_id : string) : M (list Message) :=
  doc_ref <- document user_id ;;
  doc <- doc_ref_get doc_ref ;;
  let conversation :=
    match doc with
    | Some d => dict_get_conversation d []
    | None => []
    end in
  ret conversation.

Definition update_conversation_messages (user_id : string) (new_messages : list Message) : M unit :=
  doc_ref <- document user_id ;;
  let conversation := [] in
  doc <- doc_ref_get doc_ref ;;
  let conversation :=
    match doc with
    | Some d => dict_get_conversation d []
    | None => conversation
    end in
  let conversation := conversation ++ new_messages in
  doc_ref_set doc_ref (mkDocument (Some conversation) ∅) true.

#[global] Arguments accepted : simpl never.
#[global] Arguments get_conversation : simpl never.
#[global] Arguments update_conversation_messages : simpl never.

(** ** The response generator *)

(** [open("prompts.json")] followed by [json.load(f)] *)
Definition json_load_prompts : M File :=
  fun w =>
    match prompts_json w with
    | Missing => (inl FileNotFoundError, w)
    | NotJson => (inl JSONDecodeError, w)
    | f => (inr f, w)
    end.

(** [prompts[key]] *)
Definition subscript (prompts : File) (key : string) : M string :=
  match prompts with
  | JsonObject fields =>
      match fields !! key with
      | Some v => ret v
      | None => raise (KeyError key)
      end
  | _ => raise TypeError
  end.

(** [l[0]] *)
Definition index0 {A} (l : list A) : M A :=
  match l with
  | x :: _ => ret x
  | [] => raise IndexError
  end.

(** [openai.ChatCompletion.create(...)]: the request is logged, the vendor
    answers or raises. *)
Definition openai_ChatCompletion_create (r : OpenAIRequest) : M ChatCompletion :=
  fun w => (openai_vendor w (requests w) r,
            set_requests (fun l => l ++ [OpenAICall r]) w).

(** [anthropic.messages.create(...)] *)
Definition anthropic_messages_create (r : AnthropicRequest) : M AnthropicMessage :=
  fun w => (anthropic_vendor w (requests w) r,
            set_requests (fun l => l ++ [AnthropicCall r]) w).

(** The body of the loop [for msg in conversation_history] of the Anthropic
    branch: one step on the list [messages] built so far. *)
Definition anthropic_step (messages : list Message) (msg : Message) : list Message :=
  if String.eqb (role msg) "user" then
    messages ++ [mkMessage "user" (content msg)]
  else if String.eqb (role msg) "assistant" then
    messages ++ [mkMessage "assistant" (content msg)]
  else messages.

(** [provider] is [None] when the caller leaves the argument out. *)
Definition get_llm_response (conversation_history : list Message)
    (incoming_msg : string) (provider : option string) : M string :=
  let provider := default "anthropic" provider in
  prompts <- json_load_prompts ;;
  system_prompt <- subscript prompts "system_prompt" ;;
  if String.eqb provider "openai" then
    let messages := [mkMessage "system" system_prompt] in
    let messages := messages ++ conversation_history in
    let messages := messages ++ [mkMessage "user" incoming_msg] in
    response <- openai_ChatCompletion_create (mkOpenAIRequest "gpt-4o" messages 1) ;;
    choice <- index0 (choices response) ;;
    ret (strip (content choice))
  else if String.eqb provider "anthropic" then
    let messages := [] in
    let messages := fold_left anthropic_step conversation_history messages in
    let messages := messages ++ [mkMessage "user" incoming_msg] in
    response <- anthropic_messages_create
      (mkAnthropicRequest "claude-3-5-sonnet-20241022" 1000 messages system_prompt) ;;
    block <- index0 (content_blocks response) ;;
    ret (strip block)
  else
    raise (ValueError ("Unsupported provider: " +:+ provider)).

(** ** The session loop *)

Definition get_session_state : M SessionState :=
  fun w => (inr (session_state w), w).

Definition set_user_id (u : string) : M unit :=
  fun w => (inr tt, set_session_state
    (fun s => mkSessionState (Some u) (conversation s) (user_input_key s)) w).

Definition set_conversation (c : list Message) : M unit :=
  fun w => (inr tt, set_session_state
    (fun s => mkSessionState (user_id s) (Some c) (user_input_key s)) w).

Definition set_user_input_key (k : Z) : M unit :=
  fun w => (inr tt, set_session_state
    (fun s => mkSessionState (user_id s) (conversation s) (Some k)) w).

(** Reading an attribute of [st.session_state] that is not set raises. *)
Definition attr {A} (name : string) (field : SessionState -> option A) : M A :=
  s <- get_session_state ;;
  match field s with
  | Some v => ret v
  | None => raise (AttributeError name)
  end.

(** [st.session_state.conversation.append(m)] *)
Definition conversation_append (m : Message) : M unit :=
  c <- attr "conversation" conversation ;;
  set_conversation (c ++ [m]).

Definition st_stop : M unit := raise StopException.
Definition st_experimental_rerun : M unit := raise RerunException.

(** [c[-1]["role"] == "user"]; the program only evaluates it on a list that
    is not empty. *)
Definition last_role_is_user (c : list Message) : bool :=
  match last c with
  | Some m => String.eqb (role m) "user"
  | None => false
  end.

(** [c[-1]] *)
Definition index_last {A} (c : list A) : M A :=
  match last c with
  | Some m => ret m
  | None => raise IndexError
  end.

Definition main (ui : UI) : M unit :=
  s <- get_session_state ;;
  (when (match user_id s with
         | None => true
         | Some u => negb (str_bool u)
         end)
     (set_user_id (text_input ui) ;;;
      u <- attr "user_id" user_id ;;
      if negb (str_bool u) then st_stop
      else
        (u <- attr "user_id" user_id ;;
         c <- get_conversation u ;;
         set_conversation c))) ;;;
  _ <- attr "user_id" user_id ;;
  _ <- attr "conversation" conversation ;;
  s <- get_session_state ;;
  (when (match user_input_key s with None => true | Some _ => false end)
     (set_user_input_key 0)) ;;;
  key <- attr "user_input_key" user_input_key ;;
  let user_input := text_area ui ("user_input_" +:+ pretty key) in
  let send_button := button ui in
  (when ((send_button
          || (str_bool user_input && str_bool (strip user_input)
              && negb (contains_newline user_input)))
         && str_bool (strip user_input))
     (let user_message := mkMessage "user" (strip user_input) in
      conversation_append user_message ;;;
      u <- attr "user_id" user_id ;;
      update_conversation_messages u [user_message] ;;;
      k <- attr "user_input_key" user_input_key ;;
      set_user_input_key (k + 1) ;;;
      st_experimental_rerun)) ;;;
  c <- attr "conversation" conversation ;;
  when (list_bool c && last_role_is_user c)
    (c <- attr "conversation" conversation ;;
     m <- index_last c ;;
     response_text <- get_llm_response (removelast c) (content m) None ;;
     let assistant_message := mkMessage "assistant" response_text in
     conversation_append assistant_message ;;;
     u <- attr "user_id" user_id ;;
     update_conversation_messages u [assistant_message] ;;;
     st_experimental_rerun).

(** A session: the script is run once for every report of the browser, each
    run starting in the state the previous one left, whatever way it ended. *)
Fixpoint run_session (uis : list UI) (w : World) : World :=
  match uis with
  | [] => w
  | ui :: uis' => run_session uis' (snd (main ui w))
  end.


(** The roles the Anthropic branch keeps. *)
Definition chat_role (m : Message) : Prop :=
  role m = "user" \/ role m = "assistant".

#[global] Instance chat_role_dec (m : Message) : Decision (chat_role m).
Proof. unfold chat_role. apply _. Defined.

Definition is_anthropic (r : Request) : Prop :=
  match r with
  | AnthropicCall _ => True
  | OpenAICall _ => False
  end.

(** The state in which the generator is called: the session state has its
    widget counter set. *)
Definition with_input_key (w : World) : World :=
  set_session_state
    (fun s => mkSessionState (user_id s) (conversation s)
                (Some (default 0 (user_input_key s)))) w.

(** The test of the send branch on what the browser reports. *)
Definition send_requested (ui : UI) (w : World) : bool :=
  let key := default 0 (user_input_key (session_state w)) in
  let user_input := text_area ui ("user_input_" +:+ pretty key) in
  (button ui
   || (str_bool user_input && str_bool (strip user_input)
       && negb (contains_newline user_input)))
  && str_bool (strip user_input).

(** A computation that sends nothing but Anthropic requests. *)
Definition only_anthropic {A} (m : M A) : Prop :=
  forall w, exists l,
    requests (snd (m w)) = requests w ++ l /\ Forall is_anthropic l.

(** A computation that leaves the log of requests as it is. *)
Definition silent {A} (m : M A) : Prop :=
  forall w, requests (snd (m w)) = requests w.

(** The first and the last character of a string, and [lstrip] read on the
    list of the characters. *)
Definition first_char (s : string) : option ascii :=
  match s with
  | String c _ => Some c
  | EmptyString => None
  end.

Fixpoint last_char (s : string) : option ascii :=
  match s with
  | EmptyString => None
  | String c EmptyString => Some c
  | String _ s' => last_char s'
  end.

Fixpoint lstrip_chars (l : list ascii) : list ascii :=
  match l with
  | c :: l' => if isspace c then lstrip_chars l' else l
  | [] => []
  end.

(** The session shows what the store holds: a conversation loaded in the
    session belongs to an identifier that is not empty, and is the
    conversation a read of the store returns for it. *)
Definition in_sync (w : World) : Prop :=
  forall c,
    conversation (session_state w) = Some c ->
    exists u,
      user_id (session_state w) = Some u
      /\ str_bool u = true
      /\ fst (get_conversation u w) = inr c.

(** ** Sample data *)

Module Sample.

Definition hi : Message := mkMessage "user" "hi".
Definition hello : Message := mkMessage "assistant" "hello".
Definition ignored : Message := mkMessage "system" "ignored".

Definition prompts : gmap string string :=
  {[ "system_prompt" := "You are Tuco." ]}.

(** A vendor that answers every request with the same text. *)
Definition openai (_ : list Request) (_ : OpenAIRequest) : Exception + ChatCompletion :=
  inr (mkChatCompletion [mkMessage "assistant" " Tell me more. "]).

Definition anthropic (_ : list Request) (_ : AnthropicRequest) : Exception + AnthropicMessage :=
  inr (mkAnthropicMessage [" Tell me more. "]).

Definition no_session : SessionState := mkSessionState None None None.

(** An empty store, a prompt file, a session that has not started. *)
Definition world : World :=
  mkWorld ∅ (JsonObject prompts) no_session [] openai anthropic.

(** A record with a conversation and two other fields. *)
Definition sam : Document :=
  mkDocument (Some [hi; hello]) {[ "plan" := "free"; "lang" := "en" ]}.

(** A record without the field ["conversation"]. *)
Definition bare : Document := mkDocument None {[ "plan" := "free" ]}.

Definition world_sam : World :=
  mkWorld {[ "Sam" := sam; "Kim" := bare ]} (JsonObject prompts)
    no_session [] openai anthropic.

(** The browser at the identifier prompt, with [name] typed in. *)
Definition ui_name (name : string) : UI := mkUI name (fun _ => EmptyString) false.

(** The browser with [text] in the text area of key [key] and the button
    clicked. *)
Definition ui_send (key text : string) : UI :=
  mkUI EmptyString (fun k => if String.eqb k key then text else EmptyString) true.

(** The browser with an empty text area and nothing clicked. *)
Definition ui_idle : UI := mkUI EmptyString (fun _ => EmptyString) false.

Definition stuck : Message := mkMessage "user" "I feel stuck".

(** A session waiting for the reply to its last message. *)
Definition world_waiting : World :=
  mkWorld {[ "Sam" := mkDocument (Some [stuck]) ∅ ]} (JsonObject prompts)
    (mkSessionState (Some "Sam") (Some [stuck]) (Some 1)) [] openai anthropic.

(** The sample state without the prompt file, with a prompt file that
    lacks the field, and with the file rewritten after a first call. *)
Definition world_no_file : World := set_prompts_json Missing world.

Definition world_no_field : World := set_prompts_json (JsonObject ∅) world.

Definition brief : gmap string string := {[ "system_prompt" := "Be brief." ]}.

Definition world_rewritten : World :=
  set_prompts_json (JsonObject brief) (snd (get_llm_response [] "hi" None world)).

(** The browser with blanks in every text area and the button clicked. *)
Definition ui_blank : UI := mkUI EmptyString (fun _ => "   ") true.

(** The browser with two lines typed and nothing clicked. *)
Definition ui_two_lines : UI :=
  mkUI EmptyString (fun _ => String "a" (String "010" (String "b" EmptyString))) false.

(** A vendor that is down, and one that answers without any content. *)
Definition anthropic_down (_ : list Request) (_ : AnthropicRequest)
  : Exception + AnthropicMessage :=
  inl (VendorError "overloaded").

Definition anthropic_mute (_ : list Request) (_ : AnthropicRequest)
  : Exception + AnthropicMessage :=
  inr (mkAnthropicMessage []).

Definition world_down : World :=
  mkWorld {[ "Sam" := mkDocument (Some [stuck]) ∅ ]} (JsonObject prompts)
    (mkSessionState (Some "Sam") (Some [stuck]) (Some 1)) [] openai anthropic_down.

Definition world_mute : World :=
  mkWorld ∅ (JsonObject prompts) no_session [] openai anthropic_mute.

(** The waiting session once the reply has come. *)
Definition world_replied : World := snd (main ui_idle world_waiting).

(** A store that holds a conversation left without a reply. *)
Definition world_pending : World :=
  mkWorld {[ "Sam" := mkDocument (Some [stuck]) ∅ ]} (JsonObject prompts)
    no_session [] openai anthropic.

End Sample.

(** * Properties *)

(** ** The conversation store *)

Lemma get_conversation_eq (u : string) (w : World) :
  get_conversation u w =
  (if accepted u then
     inr (match db w !! u with
          | Some d => dict_get_conversation d []
          | None => []
          end)
   else inl odd_path_error, w).
Proof.
  unfold get_conversation, document, bind. by destruct (accepted u).
Qed.

Lemma get_conversation_pure (u : string) (w : World) :
  snd (get_conversation u w) = w.
Proof. by rewrite get_conversation_eq. Qed.

Lemma iter_get_conversation (u : string) (n : nat) (w : World) :
  Nat.iter n (fun x => snd (get_conversation u x)) w = w.
Proof.
  induction n as [|n IH].
  - reflexivity.
  - rewrite Nat.iter_succ, IH. apply get_conversation_pure.
Qed.

(** A read succeeds on the identifiers the client takes, and on no other. *)
Lemma get_conversation_accepted (u : string) (w : World) (c : list Message) :
  fst (get_conversation u w) = inr c -> accepted u = true.
Proof.
  rewrite get_conversation_eq; simpl. by destruct (accepted u).
Qed.

Lemma update_conversation_messages_eq (u : string) (msgs : list Message) (w : World) :
  update_conversation_messages u msgs w =
  if accepted u then
    (inr tt,
     set_db (fun d =>
       <[u := match db w !! u with
              | Some old =>
                  mkDocument (Some (dict_get_conversation old [] ++ msgs))
                             (doc_others old)
              | None => mkDocument (Some msgs) ∅
              end]> d) w)
  else (inl odd_path_error, w).
Proof.
  unfold update_conversation_messages, document, bind, doc_ref_get, doc_ref_set.
  destruct (accepted u); simpl; [|done].
  destruct (db w !! u) as [old|]; simpl.
  - unfold merge_fields; simpl. by rewrite (left_id_L ∅ (∪)).
  - reflexivity.
Qed.

Lemma get_after_update (u : string) (msgs : list Message) (w : World) :
  fst (get_conversation u (snd (update_conversation_messages u msgs w))) =
  match fst (get_conversation u w) with
  | inr c => inr (c ++ msgs)
  | inl e => inl e
  end.
Proof.
  rewrite update_conversation_messages_eq, !get_conversation_eq.
  destruct (accepted u); simpl; [|done].
  rewrite lookup_insert_eq.
  destruct (db w !! u) as [old|]; reflexivity.
Qed.



(** C3: reading an identifier that has no record writes nothing and creates
    no record, whatever the number [n] of reads made before; on an identifier
    the client takes it returns the empty sequence and raises nothing, and on
    one the client refuses it raises the error of the client. *)
Theorem get_conversation_missing (w : World) (u : string) (n : nat) :
  db w !! u = None ->
  let w' := Nat.iter n (fun x => snd (get_conversation u x)) w in
  get_conversation u w' = (if accepted u then inr [] else inl odd_path_error, w)
  /\ db w' !! u = None.
Proof.
  intros Hnone w'. subst w'. rewrite iter_get_conversation.
  rewrite get_conversation_eq, Hnone. done.
Qed.

Lemma get_conversation_missing_witness :
  db Sample.world !! "Sam" = None /\
  (let w' := Nat.iter 3 (fun x => snd (get_conversation "Sam" x)) Sample.world in
   get_conversation "Sam" w' = (inr [], Sample.world) /\ db w' !! "Sam" = None).
Proof.
  split; [reflexivity|].
  apply (get_conversation_missing Sample.world "Sam" 3). reflexivity.
Defined.

(** The identifier ["Sam/Kim"] has no record, and reading it raises. *)
Lemma get_conversation_missing_counterexample :
  db Sample.world !! "Sam/Kim" = None /\
  get_conversation "Sam/Kim" Sample.world = (inl odd_path_error, Sample.world) /\
  get_conversation "Sam/Kim" Sample.world <> (inr [], Sample.world).
Proof.
  split; [reflexivity|]. split; [reflexivity|]. discriminate.
Qed.




(** C6: an append rewrites the field [conversation] of the record and nothing
    else: the other fields of the record are the ones it had, and the other
    records are untouched.  (On an identifier the client refuses the append
    raises and the record, if the store had one, is as it was.) *)
Theorem update_keeps_other_fields (w : World) (u : string) (msgs : list Message) (d : Document) :
  db w !! u = Some d ->
  let w' := snd (update_conversation_messages u msgs w) in
  db w' !! u =
    Some (mkDocument
            (if accepted u then Some (dict_get_conversation d [] ++ msgs)
             else doc_conversation d)
            (doc_others d))
  /\ (forall u', u' <> u -> db w' !! u' = db w !! u').
Proof.
  intros Hd w'. subst w'. rewrite update_conversation_messages_eq.
  destruct (accepted u); simpl.
  - rewrite Hd. split.
    + apply lookup_insert_eq.
    + intros u' Hne. by apply lookup_insert_ne.
  - split; [|done]. rewrite Hd. by destruct d.
Qed.

Lemma update_keeps_other_fields_witness :
  db Sample.world_sam !! "Sam" = Some Sample.sam /\
  (let w' := snd (update_conversation_messages "Sam" [Sample.ignored] Sample.world_sam) in
   db w' !! "Sam" =
     Some (mkDocument (Some (dict_get_conversation Sample.sam [] ++ [Sample.ignored]))
                      (doc_others Sample.sam))
   /\ (forall u', u' <> "Sam" -> db w' !! u' = db Sample.world_sam !! u')).
Proof.
  split; [reflexivity|].
  apply (update_keeps_other_fields Sample.world_sam "Sam" [Sample.ignored] Sample.sam).
  reflexivity.
Defined.




(** ** The response generator *)

Lemma chat_role_eta (m : Message) (r : string) :
  role m = r -> mkMessage r (content m) = m.
Proof. intros <-. by destruct m. Qed.

Lemma anthropic_step_filter (acc : list Message) (m : Message) :
  anthropic_step acc m = acc ++ filter chat_role [m].
Proof.
  unfold anthropic_step.
  destruct (String.eqb_spec (role m) "user") as [Hu|Hu].
  - rewrite filter_cons_True by (by left). by rewrite (chat_role_eta m "user").
  - destruct (String.eqb_spec (role m) "assistant") as [Ha|Ha].
    + rewrite filter_cons_True by (by right).
      by rewrite (chat_role_eta m "assistant").
    + rewrite filter_cons_False by (by intros [?|?]). by rewrite app_nil_r.
Qed.

Lemma anthropic_loop_filter (h acc : list Message) :
  fold_left anthropic_step h acc = acc ++ filter chat_role h.
Proof.
  revert acc; induction h as [|m h IH]; intros acc; simpl.
  - by rewrite app_nil_r.
  - rewrite IH, anthropic_step_filter, <- app_assoc.
    f_equal. symmetry. apply (filter_app chat_role [m] h).
Qed.

(** What reading the prompt yields in a state: the exception raised or the
    prompt text. *)
Lemma load_prompt_eq (w : World) :
  (prompts <- json_load_prompts ;; subscript prompts "system_prompt") w =
  (match prompts_json w with
   | Missing => inl FileNotFoundError
   | NotJson => inl JSONDecodeError
   | JsonOther => inl TypeError
   | JsonObject fields =>
       match fields !! "system_prompt" with
       | Some p => inr p
       | None => inl (KeyError "system_prompt")
       end
   end, w).
Proof.
  unfold bind, json_load_prompts, subscript.
  destruct (prompts_json w) as [| | |fields]; try reflexivity.
  destruct (fields !! "system_prompt"); reflexivity.
Qed.

Lemma get_llm_response_load_fails (h : list Message) (msg : string)
    (provider : option string) (w : World) (e : Exception) :
  fst ((prompts <- json_load_prompts ;; subscript prompts "system_prompt") w) = inl e ->
  get_llm_response h msg provider w = (inl e, w).
Proof.
  rewrite load_prompt_eq; simpl. intros He.
  unfold get_llm_response, bind, json_load_prompts, subscript.
  destruct (prompts_json w) as [| | |fields]; simpl in *; try congruence.
  destruct (fields !! "system_prompt"); simpl in *; congruence.
Qed.

Lemma get_llm_response_anthropic_eq (h : list Message) (msg : string) (w : World)
    (fields : gmap string string) (p : string) :
  prompts_json w = JsonObject fields ->
  fields !! "system_prompt" = Some p ->
  let req := mkAnthropicRequest "claude-3-5-sonnet-20241022" 1000
               (filter chat_role h ++ [mkMessage "user" msg]) p in
  get_llm_response h msg (Some "anthropic") w =
  (match anthropic_vendor w (requests w) req with
   | inr response =>
       match content_blocks response with
       | block :: _ => inr (strip block)
       | [] => inl IndexError
       end
   | inl e => inl e
   end,
   set_requests (fun l => l ++ [AnthropicCall req]) w).
Proof.
  intros Hfile Hfield req.
  unfold get_llm_response, bind, json_load_prompts, subscript; simpl.
  rewrite Hfile, Hfield; simpl.
  rewrite anthropic_loop_filter; simpl. fold req.
  unfold anthropic_messages_create.
  destruct (anthropic_vendor w (requests w) req) as [e|[blocks]]; simpl; [done|].
  destruct blocks; reflexivity.
Qed.

Lemma get_llm_response_openai_eq (h : list Message) (msg : string) (w : World)
    (fields : gmap string string) (p : string) :
  prompts_json w = JsonObject fields ->
  fields !! "system_prompt" = Some p ->
  let req := mkOpenAIRequest "gpt-4o"
               (mkMessage "system" p :: h ++ [mkMessage "user" msg]) 1 in
  get_llm_response h msg (Some "openai") w =
  (match openai_vendor w (requests w) req with
   | inr response =>
       match choices response with
       | choice :: _ => inr (strip (content choice))
       | [] => inl IndexError
       end
   | inl e => inl e
   end,
   set_requests (fun l => l ++ [OpenAICall req]) w).
Proof.
  intros Hfile Hfield req.
  unfold get_llm_response, bind, json_load_prompts, subscript; simpl.
  rewrite Hfile, Hfield; simpl. fold req.
  unfold openai_ChatCompletion_create.
  destruct (openai_vendor w (requests w) req) as [e|[cs]]; simpl; [done|].
  destruct cs; reflexivity.
Qed.

Lemma get_llm_response_default (h : list Message) (msg : string) :
  get_llm_response h msg None = get_llm_response h msg (Some "anthropic").
Proof. reflexivity. Qed.

(** C1: on the Anthropic branch the request carries the messages of the
    history whose role is [user] or [assistant], in their order, followed by
    the new user message as last element; the prompt travels in the field
    [system] of the request and no entry of the list has the role [system]. *)
Theorem anthropic_outgoing_messages (w : World) (fields : gmap string string)
    (p : string) (h : list Message) (msg : string) :
  prompts_json w = JsonObject fields ->
  fields !! "system_prompt" = Some p ->
  let out := filter chat_role h ++ [mkMessage "user" msg] in
  requests (snd (get_llm_response h msg (Some "anthropic") w)) =
    requests w ++
    [AnthropicCall (mkAnthropicRequest "claude-3-5-sonnet-20241022" 1000 out p)]
  /\ last out = Some (mkMessage "user" msg)
  /\ Forall chat_role out
  /\ (forall m, m ∈ out -> role m <> "system").
Proof.
  intros Hfile Hfield out.
  assert (Hroles : Forall chat_role out).
  { apply Forall_app. split.
    - apply Forall_forall. intros m Hm. by apply list_elem_of_filter in Hm as [? _].
    - repeat constructor. }
  split; [|split; [|split]].
  - by rewrite (get_llm_response_anthropic_eq h msg w fields p Hfile Hfield).
  - apply last_snoc.
  - exact Hroles.
  - intros m Hm Hsys. rewrite Forall_forall in Hroles.
    destruct (Hroles m Hm) as [Hr|Hr]; rewrite Hsys in Hr; discriminate.
Qed.

Lemma anthropic_outgoing_messages_witness :
  prompts_json Sample.world = JsonObject Sample.prompts /\
  Sample.prompts !! "system_prompt" = Some "You are Tuco." /\
  requests (snd (get_llm_response [Sample.hi; Sample.hello; Sample.ignored]
                   "how are you" (Some "anthropic") Sample.world)) =
    [AnthropicCall
       (mkAnthropicRequest "claude-3-5-sonnet-20241022" 1000
          [mkMessage "user" "hi"; mkMessage "assistant" "hello";
           mkMessage "user" "how are you"]
          "You are Tuco.")].
Proof.
  split; [reflexivity|]. split; [reflexivity|].
  exact (proj1 (anthropic_outgoing_messages Sample.world Sample.prompts
                  "You are Tuco." [Sample.hi; Sample.hello; Sample.ignored]
                  "how are you" eq_refl eq_refl)).
Defined.

(** C2: on the OpenAI branch the request carries one entry of role [system]
    holding the loaded prompt, then every element of the history as it is,
    whatever its role, then the new user message as last element. *)
Theorem openai_outgoing_messages (w : World) (fields : gmap string string)
    (p : string) (h : list Message) (msg : string) :
  prompts_json w = JsonObject fields ->
  fields !! "system_prompt" = Some p ->
  requests (snd (get_llm_response h msg (Some "openai") w)) =
    requests w ++
    [OpenAICall
       (mkOpenAIRequest "gpt-4o"
          ([mkMessage "system" p] ++ h ++ [mkMessage "user" msg]) 1)].
Proof.
  intros Hfile Hfield.
  by rewrite (get_llm_response_openai_eq h msg w fields p Hfile Hfield).
Qed.

Lemma openai_outgoing_messages_witness :
  prompts_json Sample.world = JsonObject Sample.prompts /\
  Sample.prompts !! "system_prompt" = Some "You are Tuco." /\
  requests (snd (get_llm_response [Sample.hi; Sample.hello; Sample.ignored]
                   "how are you" (Some "openai") Sample.world)) =
    [OpenAICall
       (mkOpenAIRequest "gpt-4o"
          [mkMessage "system" "You are Tuco."; mkMessage "user" "hi";
           mkMessage "assistant" "hello"; mkMessage "system" "ignored";
           mkMessage "user" "how are you"] 1)].
Proof.
  split; [reflexivity|]. split; [reflexivity|].
  exact (openai_outgoing_messages Sample.world Sample.prompts
           "You are Tuco." [Sample.hi; Sample.hello; Sample.ignored]
           "how are you" eq_refl eq_refl).
Defined.

(** C5: with a provider that is neither ["openai"] nor ["anthropic"] the call
    raises and leaves the state as it was, so no request has been sent to a
    vendor; when the prompt could be read the exception is the [ValueError]
    naming the provider. *)
Theorem unsupported_provider_raises (w : World) (h : list Message) (msg provider : string) :
  provider <> "openai" ->
  provider <> "anthropic" ->
  exists e,
    get_llm_response h msg (Some provider) w = (inl e, w)
    /\ (forall fields p,
          prompts_json w = JsonObject fields ->
          fields !! "system_prompt" = Some p ->
          e = ValueError ("Unsupported provider: " +:+ provider)).
Proof.
  intros Ho Ha.
  apply String.eqb_neq in Ho. apply String.eqb_neq in Ha.
  unfold get_llm_response, bind, json_load_prompts, subscript; simpl.
  destruct (prompts_json w) as [| | |fields] eqn:Hfile; simpl.
  1-3: eexists; split; [reflexivity|]; intros; discriminate.
  destruct (fields !! "system_prompt") as [p|] eqn:Hfield; simpl.
  - rewrite Ho, Ha. eexists; split; [reflexivity|]. intros; reflexivity.
  - eexists; split; [reflexivity|]. intros f p Hf Hp.
    injection Hf as <-. congruence.
Qed.

Lemma unsupported_provider_raises_witness :
  "gemini" <> "openai" /\ "gemini" <> "anthropic" /\
  get_llm_response [Sample.hi] "how are you" (Some "gemini") Sample.world =
    (inl (ValueError "Unsupported provider: gemini"), Sample.world).
Proof.
  assert (Ho : "gemini" <> "openai") by discriminate.
  assert (Ha : "gemini" <> "anthropic") by discriminate.
  split; [exact Ho|]. split; [exact Ha|].
  destruct (unsupported_provider_raises Sample.world [Sample.hi] "how are you"
              "gemini" Ho Ha) as (e & Hrun & Herr).
  rewrite Hrun. f_equal. f_equal.
  exact (Herr Sample.prompts "You are Tuco." eq_refl eq_refl).
Defined.

(** C7: the prompt is read from the file by each call: a call made after the
    file has been rewritten sends the new text, whatever an earlier call
    read; and a call raises, sending nothing and returning no reply, when the
    file is missing or has no field [system_prompt]. *)
Theorem prompt_read_on_every_call (w : World) (h : list Message) (msg : string)
    (provider : option string) :
  (prompts_json w = Missing ->
     get_llm_response h msg provider w = (inl FileNotFoundError, w))
  /\ (forall fields,
        prompts_json w = JsonObject fields ->
        fields !! "system_prompt" = None ->
        get_llm_response h msg provider w = (inl (KeyError "system_prompt"), w))
  /\ (forall fields p h2 msg2,
        fields !! "system_prompt" = Some p ->
        let w1 := set_prompts_json (JsonObject fields)
                    (snd (get_llm_response h msg provider w)) in
        requests (snd (get_llm_response h2 msg2 (Some "anthropic") w1)) =
          requests w1 ++
          [AnthropicCall
             (mkAnthropicRequest "claude-3-5-sonnet-20241022" 1000
                (filter chat_role h2 ++ [mkMessage "user" msg2]) p)]
        /\ requests (snd (get_llm_response h2 msg2 (Some "openai") w1)) =
          requests w1 ++
          [OpenAICall
             (mkOpenAIRequest "gpt-4o"
                ([mkMessage "system" p] ++ h2 ++ [mkMessage "user" msg2]) 1)]).
Proof.
  split; [|split].
  - intros Hfile. apply get_llm_response_load_fails.
    by rewrite load_prompt_eq, Hfile.
  - intros fields Hfile Hfield. apply get_llm_response_load_fails.
    by rewrite load_prompt_eq, Hfile, Hfield.
  - intros fields p h2 msg2 Hfield w1. split.
    + by rewrite (get_llm_response_anthropic_eq h2 msg2 w1 fields p eq_refl Hfield).
    + by rewrite (get_llm_response_openai_eq h2 msg2 w1 fields p eq_refl Hfield).
Qed.

Lemma prompt_read_on_every_call_witness :
  (prompts_json Sample.world_no_file = Missing /\
   get_llm_response [] "hi" None Sample.world_no_file =
     (inl FileNotFoundError, Sample.world_no_file))
  /\ (prompts_json Sample.world_no_field = JsonObject ∅ /\
      (∅ : gmap string string) !! "system_prompt" = None /\
      get_llm_response [] "hi" None Sample.world_no_field =
        (inl (KeyError "system_prompt"), Sample.world_no_field))
  /\ (Sample.brief !! "system_prompt" = Some "Be brief." /\
      requests (snd (get_llm_response [Sample.hi] "again" (Some "anthropic")
                       Sample.world_rewritten)) =
       [AnthropicCall
          (mkAnthropicRequest "claude-3-5-sonnet-20241022" 1000
             [mkMessage "user" "hi"] "You are Tuco.");
        AnthropicCall
          (mkAnthropicRequest "claude-3-5-sonnet-20241022" 1000
             [mkMessage "user" "hi"; mkMessage "user" "again"] "Be brief.")]).
Proof.
  split; [|split].
  - split; [reflexivity|].
    exact (proj1 (prompt_read_on_every_call Sample.world_no_file [] "hi" None) eq_refl).
  - split; [reflexivity|]. split; [reflexivity|].
    exact (proj1 (proj2 (prompt_read_on_every_call Sample.world_no_field [] "hi" None))
             ∅ eq_refl eq_refl).
  - split; [reflexivity|].
    exact (proj1 (proj2 (proj2 (prompt_read_on_every_call Sample.world [] "hi" None))
                    Sample.brief "Be brief." [Sample.hi] "again" eq_refl)).
Defined.

(** ** The session loop *)

Lemma silent_only_anthropic {A} (m : M A) : silent m -> only_anthropic m.
Proof.
  intros Hm w. exists []. rewrite Hm, app_nil_r. by split.
Qed.

Lemma only_anthropic_bind {A B} (m : M A) (k : A -> M B) :
  only_anthropic m -> (forall a, only_anthropic (k a)) -> only_anthropic (bind m k).
Proof.
  intros Hm Hk w. unfold bind.
  destruct (Hm w) as (l1 & Hl1 & Hf1).
  destruct (m w) as [[e|a] w1]; simpl in *.
  - by exists l1.
  - destruct (Hk a w1) as (l2 & Hl2 & Hf2).
    exists (l1 ++ l2). split.
    + by rewrite Hl2, Hl1, app_assoc.
    + by apply Forall_app.
Qed.

Lemma only_anthropic_when (b : bool) (m : M unit) :
  only_anthropic m -> only_anthropic (when b m).
Proof.
  intros Hm. destruct b; simpl; [exact Hm|].
  by apply silent_only_anthropic.
Qed.

Lemma silent_attr {A} (name : string) (field : SessionState -> option A) :
  silent (attr name field).
Proof.
  intros w. unfold attr, bind, get_session_state; simpl.
  by destruct (field (session_state w)).
Qed.

Lemma silent_get_conversation (u : string) : silent (get_conversation u).
Proof. intros w. by rewrite get_conversation_eq. Qed.

Lemma silent_update_conversation_messages (u : string) (msgs : list Message) :
  silent (update_conversation_messages u msgs).
Proof.
  intros w. rewrite update_conversation_messages_eq. by destruct (accepted u).
Qed.

Lemma silent_conversation_append (m : Message) : silent (conversation_append m).
Proof.
  intros w. unfold conversation_append, attr, bind, get_session_state; simpl.
  by destruct (conversation (session_state w)).
Qed.

Lemma silent_index_last {A} (c : list A) : silent (index_last c).
Proof. intros w. unfold index_last. by destruct (last c). Qed.

Create HintDb silent_db.
#[global] Hint Resolve silent_attr silent_get_conversation
  silent_update_conversation_messages silent_conversation_append
  silent_index_last : silent_db.

(** A call changes the state only by what it adds to the log of requests. *)
Lemma get_llm_response_frame (h : list Message) (msg : string)
    (provider : option string) (w : World) :
  exists l, snd (get_llm_response h msg provider w) = set_requests (fun r => r ++ l) w.
Proof.
  assert (Hid : set_requests (fun r => r ++ []) w = w).
  { destruct w; unfold set_requests; simpl. by rewrite app_nil_r. }
  unfold get_llm_response, bind, json_load_prompts, subscript; simpl.
  destruct (prompts_json w) as [| | |fields]; simpl; try (by exists []).
  destruct (fields !! "system_prompt") as [p|]; simpl; [|by exists []].
  destruct (String.eqb _ "openai").
  - unfold openai_ChatCompletion_create.
    destruct (openai_vendor w _ _) as [e|[cs]]; simpl; [by eexists|].
    destruct cs; simpl; by eexists.
  - destruct (String.eqb _ "anthropic"); simpl; [|by exists []].
    unfold anthropic_messages_create.
    destruct (anthropic_vendor w _ _) as [e|[bs]]; simpl; [by eexists|].
    destruct bs; simpl; by eexists.
Qed.

Lemma only_anthropic_get_llm_response (h : list Message) (msg : string) :
  only_anthropic (get_llm_response h msg None).
Proof.
  intros w. rewrite get_llm_response_default.
  destruct ((prompts <- json_load_prompts ;; subscript prompts "system_prompt") w)
    as [[e|p] w0] eqn:Hload.
  - rewrite (get_llm_response_load_fails h msg _ w e) by (by rewrite Hload).
    exists []. rewrite app_nil_r. by split.
  - rewrite load_prompt_eq in Hload.
    destruct (prompts_json w) as [| | |fields] eqn:Hfile; try discriminate.
    destruct (fields !! "system_prompt") as [p'|] eqn:Hfield; try discriminate.
    rewrite (get_llm_response_anthropic_eq h msg w fields p' Hfile Hfield); simpl.
    eexists. split; [reflexivity|]. by repeat constructor.
Qed.

Lemma only_anthropic_main (ui : UI) : only_anthropic (main ui).
Proof.
  unfold main.
  repeat first
    [ apply only_anthropic_get_llm_response
    | apply silent_only_anthropic; solve [ auto with silent_db | by intros ? ]
    | apply only_anthropic_when
    | apply only_anthropic_bind; [|intros ?]
    | match goal with |- only_anthropic (if ?b then _ else _) => destruct b end ].
Qed.

Lemma only_anthropic_run_session (uis : list UI) (w : World) :
  exists l, requests (run_session uis w) = requests w ++ l /\ Forall is_anthropic l.
Proof.
  revert w; induction uis as [|ui uis IH]; intros w; simpl.
  - exists []. rewrite app_nil_r. by split.
  - destruct (only_anthropic_main ui w) as (l1 & Hl1 & Hf1).
    destruct (IH (snd (main ui w))) as (l2 & Hl2 & Hf2).
    exists (l1 ++ l2). split.
    + by rewrite Hl2, Hl1, app_assoc.
    + by apply Forall_app.
Qed.

(** Unfolds a run of the script down to the state it acts on. *)
Ltac run_main :=
  unfold main, when, attr, get_session_state, set_user_id, set_user_input_key, bind;
  simpl.

Lemma list_bool_snoc {A} (l : list A) (x : A) : list_bool (l ++ [x]) = true.
Proof. by destruct l. Qed.

Lemma last_role_is_user_snoc (l : list Message) (m : Message) :
  last_role_is_user (l ++ [m]) = String.eqb (role m) "user".
Proof. unfold last_role_is_user. by rewrite last_snoc. Qed.

(** A run of the script on an identified session whose conversation ends
    with a user message, when nothing is sent in that run: the outcome is the
    one of the call [get_llm_response (all but last) (content of last)]
    made without a provider; on its success the reply goes to the session and
    then to the store, where the client may refuse the identifier. *)
Lemma main_awaiting_eq (ui : UI) (w : World) (u : string)
    (hist : list Message) (m : Message) :
  user_id (session_state w) = Some u ->
  str_bool u = true ->
  conversation (session_state w) = Some (hist ++ [m]) ->
  role m = "user" ->
  send_requested ui w = false ->
  main ui w =
  match get_llm_response hist (content m) None (with_input_key w) with
  | (inr text, w1) =>
      (inl (if accepted u then RerunException else odd_path_error),
       snd (update_conversation_messages u [mkMessage "assistant" text]
              (snd (set_conversation ((hist ++ [m]) ++ [mkMessage "assistant" text]) w1))))
  | (inl e, w1) => (inl e, w1)
  end.
Proof.
  intros Hu Hnonempty Hc Hm Hsend.
  destruct (get_llm_response_frame hist (content m) None (with_input_key w))
    as (l & Hframe).
  unfold send_requested, with_input_key in *.
  destruct w as [d f [uid conv k] r ov av]; simpl in *. subst uid conv.
  destruct k as [k|]; simpl in Hsend, Hframe |- *.
  all: run_main.
  all: rewrite Hnonempty; simpl.
  all: rewrite Hsend; simpl.
  all: rewrite list_bool_snoc, last_role_is_user_snoc, Hm; simpl.
  all: unfold index_last; rewrite last_snoc, removelast_last; simpl.
  all: unfold set_session_state in *; simpl in *.
  all: match goal with
       | |- context [get_llm_response ?a ?b ?c ?x] =>
           destruct (get_llm_response a b c x) as [[e|text] w1]
       end; [done|].
  all: simpl in Hframe; subst w1.
  all: unfold conversation_append, attr, get_session_state, set_conversation, bind; simpl.
  all: rewrite !update_conversation_messages_eq.
  all: destruct (accepted u); reflexivity.
Qed.

(** The run in which an identifier the client takes is given: it goes on as
    a run on the session identified by the text typed, with the stored
    conversation loaded. *)
Lemma main_identify (ui : UI) (w : World) :
  (user_id (session_state w) = None \/ user_id (session_state w) = Some EmptyString) ->
  str_bool (text_input ui) = true ->
  accepted (text_input ui) = true ->
  main ui w =
  main ui (set_session_state
             (fun s => mkSessionState (Some (text_input ui))
                         (Some (match db w !! text_input ui with
                                | Some d => dict_get_conversation d []
                                | None => []
                                end))
                         (user_input_key s)) w).
Proof.
  intros Hid Hname Hacc.
  destruct w as [d f [uid conv k] r ov av]; simpl in *.
  run_main.
  destruct Hid as [-> | ->]; simpl; rewrite !Hname; simpl.
  all: rewrite get_conversation_eq, Hacc; reflexivity.
Qed.

(** The run in which an identifier the client refuses is given: the read of
    the store raises, the identifier stays in the session and no conversation
    is loaded. *)
Lemma main_refused_eq (ui : UI) (w : World) :
  (user_id (session_state w) = None \/ user_id (session_state w) = Some EmptyString) ->
  str_bool (text_input ui) = true ->
  accepted (text_input ui) = false ->
  main ui w =
  (inl odd_path_error,
   set_session_state
     (fun s => mkSessionState (Some (text_input ui)) (conversation s) (user_input_key s)) w).
Proof.
  intros Hid Hname Hacc.
  destruct w as [d f [uid conv k] r ov av]; simpl in *.
  run_main.
  destruct Hid as [-> | ->]; simpl; rewrite !Hname; simpl.
  all: rewrite get_conversation_eq, Hacc; reflexivity.
Qed.

(** The run in which a message is sent on an identified session: the user
    message goes to the session conversation and then to the store; when the
    client takes the identifier the widget counter moves on and the script is
    rerun, and when it refuses it the run raises there. *)
Lemma main_send_eq (ui : UI) (w : World) (u : string) (c : list Message) :
  user_id (session_state w) = Some u ->
  str_bool u = true ->
  conversation (session_state w) = Some c ->
  send_requested ui w = true ->
  let key := default 0 (user_input_key (session_state w)) in
  let user_message :=
    mkMessage "user" (strip (text_area ui ("user_input_" +:+ pretty key))) in
  main ui w =
  (inl (if accepted u then RerunException else odd_path_error),
   set_session_state
     (fun s => mkSessionState (user_id s) (Some (c ++ [user_message]))
                 (Some (if accepted u then key + 1 else key)))
     (snd (update_conversation_messages u [user_message] w))).
Proof.
  intros Hu Hnonempty Hc Hsend key user_message.
  unfold send_requested in Hsend. subst key user_message.
  destruct w as [d f [uid conv k] r ov av]; simpl in *. subst uid conv.
  destruct k as [k|]; simpl in Hsend |- *.
  all: run_main.
  all: rewrite Hnonempty; simpl.
  all: rewrite Hsend; simpl.
  all: unfold conversation_append, attr, get_session_state, set_conversation, bind; simpl.
  all: rewrite !update_conversation_messages_eq.
  all: destruct (accepted u); reflexivity.
Qed.

(** C9: a call that leaves the provider out is a call with ["anthropic"];
    over any session every request the loop sends is an Anthropic request, so
    the log gains no OpenAI request; and the run that generates a reply calls
    the generator without a provider and takes the Anthropic branch: with the
    prompt loaded, the one request it sends is the Anthropic request built
    from the conversation, and what the Anthropic vendor raises is what the
    run raises. *)
Theorem session_uses_anthropic (uis : list UI) (w : World) :
  (forall h msg, get_llm_response h msg None = get_llm_response h msg (Some "anthropic"))
  /\ (exists l,
        requests (run_session uis w) = requests w ++ l /\ Forall is_anthropic l)
  /\ (forall ui u hist m fields p,
        user_id (session_state w) = Some u ->
        str_bool u = true ->
        conversation (session_state w) = Some (hist ++ [m]) ->
        role m = "user" ->
        send_requested ui w = false ->
        prompts_json w = JsonObject fields ->
        fields !! "system_prompt" = Some p ->
        let req := mkAnthropicRequest "claude-3-5-sonnet-20241022" 1000
                     (filter chat_role hist ++ [mkMessage "user" (content m)]) p in
        main ui w =
          match get_llm_response hist (content m) None (with_input_key w) with
          | (inr text, w1) =>
              (inl (if accepted u then RerunException else odd_path_error),
               snd (update_conversation_messages u [mkMessage "assistant" text]
                      (snd (set_conversation
                              ((hist ++ [m]) ++ [mkMessage "assistant" text]) w1))))
          | (inl e, w1) => (inl e, w1)
          end
        /\ requests (snd (main ui w)) = requests w ++ [AnthropicCall req]
        /\ (forall e,
              anthropic_vendor w (requests w) req = inl e ->
              fst (main ui w) = inl e)).
Proof.
  split; [|split].
  - intros h msg. apply get_llm_response_default.
  - apply only_anthropic_run_session.
  - intros ui u hist m fields p Hu Hnonempty Hc Hm Hsend Hfile Hfield req.
    pose proof (main_awaiting_eq ui w u hist m Hu Hnonempty Hc Hm Hsend) as Hmain.
    split; [exact Hmain|].
    rewrite Hmain, get_llm_response_default.
    rewrite (get_llm_response_anthropic_eq hist (content m) (with_input_key w)
               fields p Hfile Hfield).
    fold req. simpl.
    destruct (anthropic_vendor w (requests w) req) as [e|[blocks]]; simpl.
    + split; [done|]. by intros e' [= <-].
    + destruct blocks as [|block blocks]; simpl.
      * split; [done|]. intros e' He'. discriminate He'.
      * split; [|intros e' He'; discriminate He'].
        rewrite update_conversation_messages_eq. by destruct (accepted u).
Qed.

Lemma session_uses_anthropic_witness :
  user_id (session_state Sample.world_waiting) = Some "Sam" /\
  str_bool "Sam" = true /\
  conversation (session_state Sample.world_waiting) = Some ([] ++ [Sample.stuck]) /\
  role Sample.stuck = "user" /\
  send_requested Sample.ui_idle Sample.world_waiting = false /\
  prompts_json Sample.world_waiting = JsonObject Sample.prompts /\
  Sample.prompts !! "system_prompt" = Some "You are Tuco." /\
  requests (snd (main Sample.ui_idle Sample.world_waiting)) =
    [AnthropicCall
       (mkAnthropicRequest "claude-3-5-sonnet-20241022" 1000
          [mkMessage "user" "I feel stuck"] "You are Tuco.")].
Proof.
  do 7 (split; [reflexivity|]).
  exact (proj1 (proj2 (proj2 (proj2 (session_uses_anthropic [] Sample.world_waiting))
                         Sample.ui_idle "Sam" [] Sample.stuck Sample.prompts
                         "You are Tuco." eq_refl eq_refl eq_refl eq_refl eq_refl
                         eq_refl eq_refl))).
Defined.

(** C8: on a run that finds an identified session whose conversation is
    [hist ++ [m]] with [m] a user message, and in which nothing is sent, the
    generator is called on [hist] and the content of [m], without a provider;
    when it returns [text] the run ends in a rerun, the session conversation
    is [hist ++ [m; reply]] with [reply] the assistant message holding [text],
    the store is the one an append of [[reply]] gives, and the one request
    sent is the Anthropic request built from [hist] and the content of [m].
    (A session holds a conversation under an identifier the client takes; on
    one it refuses the append to the store raises in place of the rerun.) *)
Theorem main_awaiting_response (ui : UI) (w w1 : World) (u text : string)
    (hist : list Message) (m : Message) :
  user_id (session_state w) = Some u ->
  str_bool u = true ->
  conversation (session_state w) = Some (hist ++ [m]) ->
  role m = "user" ->
  send_requested ui w = false ->
  get_llm_response hist (content m) None (with_input_key w) = (inr text, w1) ->
  let reply := mkMessage "assistant" text in
  let w' := snd (main ui w) in
  fst (main ui w) = inl (if accepted u then RerunException else odd_path_error)
  /\ conversation (session_state w') = Some (hist ++ [m; reply])
  /\ db w' = db (snd (update_conversation_messages u [reply] w))
  /\ fst (get_conversation u w') =
       match fst (get_conversation u w) with
       | inr c => inr (c ++ [reply])
       | inl e => inl e
       end
  /\ requests w' = requests w1
  /\ exists p,
       requests w' = requests w ++
         [AnthropicCall
            (mkAnthropicRequest "claude-3-5-sonnet-20241022" 1000
               (filter chat_role hist ++ [mkMessage "user" (content m)]) p)].
Proof.
  intros Hu Hnonempty Hc Hm Hsend Hgen reply w'.
  assert (Hmain := main_awaiting_eq ui w u hist m Hu Hnonempty Hc Hm Hsend).
  rewrite Hgen in Hmain. fold reply in Hmain.
  destruct (get_llm_response_frame hist (content m) None (with_input_key w))
    as (l & Hframe).
  rewrite Hgen in Hframe; simpl in Hframe.
  assert (Hdb : db w' = db (snd (update_conversation_messages u [reply] w))).
  { subst w'. rewrite Hmain, !update_conversation_messages_eq; simpl.
    destruct (accepted u); simpl; by rewrite Hframe. }
  subst w'. split; [by rewrite Hmain|]. split; [|split; [exact Hdb|split; [|split]]].
  - rewrite Hmain, update_conversation_messages_eq; simpl.
    destruct (accepted u); simpl; by rewrite <- app_assoc.
  - rewrite !get_conversation_eq; simpl. rewrite Hdb.
    rewrite update_conversation_messages_eq.
    destruct (accepted u); simpl; [|done]. rewrite lookup_insert_eq.
    by destruct (db w !! u).
  - rewrite Hmain, update_conversation_messages_eq.
    destruct (accepted u); reflexivity.
  - rewrite get_llm_response_default in Hgen.
    destruct ((prompts <- json_load_prompts ;; subscript prompts "system_prompt")
                (with_input_key w)) as [[e|p] w0] eqn:Hload.
    + rewrite (get_llm_response_load_fails hist (content m) _ _ e) in Hgen
        by (by rewrite Hload).
      discriminate.
    + rewrite load_prompt_eq in Hload.
      destruct (prompts_json (with_input_key w)) as [| | |fields] eqn:Hfile;
        try discriminate.
      destruct (fields !! "system_prompt") as [p'|] eqn:Hfield; try discriminate.
      rewrite (get_llm_response_anthropic_eq _ _ _ fields p' Hfile Hfield) in Hgen.
      exists p'. rewrite Hmain, update_conversation_messages_eq.
      injection Hgen as _ <-. destruct (accepted u); reflexivity.
Qed.

Lemma main_awaiting_response_witness :
  user_id (session_state Sample.world_waiting) = Some "Sam" /\
  str_bool "Sam" = true /\
  conversation (session_state Sample.world_waiting) = Some ([] ++ [Sample.stuck]) /\
  role Sample.stuck = "user" /\
  send_requested Sample.ui_idle Sample.world_waiting = false /\
  fst (get_llm_response [] (content Sample.stuck) None
         (with_input_key Sample.world_waiting)) = inr "Tell me more." /\
  fst (main Sample.ui_idle Sample.world_waiting) = inl RerunException /\
  conversation (session_state (snd (main Sample.ui_idle Sample.world_waiting))) =
    Some [Sample.stuck; mkMessage "assistant" "Tell me more."].
Proof.
  do 6 (split; [reflexivity|]).
  pose proof (main_awaiting_response Sample.ui_idle Sample.world_waiting
                (snd (get_llm_response [] (content Sample.stuck) None
                        (with_input_key Sample.world_waiting)))
                "Sam" "Tell me more." [] Sample.stuck
                eq_refl eq_refl eq_refl eq_refl eq_refl eq_refl) as H.
  split; [exact (proj1 H) | exact (proj1 (proj2 H))].
Defined.

(** The scenario of a new identifier: the name is given, a message is sent,
    the reply is generated; the store and the session then hold the user
    message followed by the reply. *)
Example sam_end_to_end :
  let w1 := run_session [Sample.ui_name "Sam"] Sample.world in
  let w2 := run_session [Sample.ui_send "user_input_0" "I feel stuck"] w1 in
  let w3 := run_session [Sample.ui_idle] w2 in
  conversation (session_state w1) = Some []
  /\ db w1 !! "Sam" = None
  /\ fst (get_conversation "Sam" w2) = inr [Sample.stuck]
  /\ requests w2 = []
  /\ requests w3 =
       [AnthropicCall
          (mkAnthropicRequest "claude-3-5-sonnet-20241022" 1000
             [Sample.stuck] "You are Tuco.")]
  /\ fst (get_conversation "Sam" w3) =
       inr [Sample.stuck; mkMessage "assistant" "Tell me more."]
  /\ conversation (session_state w3) =
       Some [Sample.stuck; mkMessage "assistant" "Tell me more."].
Proof. vm_compute. repeat split. Qed.

(** ** More on the session loop, the store and the generator *)

Lemma main_stop_eq (ui : UI) (w : World) :
  (user_id (session_state w) = None \/ user_id (session_state w) = Some EmptyString) ->
  str_bool (text_input ui) = false ->
  main ui w =
  (inl StopException,
   set_session_state
     (fun s => mkSessionState (Some (text_input ui)) (conversation s) (user_input_key s)) w).
Proof.
  intros Hid Hname.
  destruct w as [d f [uid conv k] r ov av]; simpl in *.
  run_main.
  destruct Hid as [-> | ->]; simpl; rewrite !Hname; reflexivity.
Qed.

Lemma main_no_conversation_eq (ui : UI) (w : World) (u : string) :
  user_id (session_state w) = Some u ->
  str_bool u = true ->
  conversation (session_state w) = None ->
  main ui w = (inl (AttributeError "conversation"), w).
Proof.
  intros Hu Hnonempty Hc.
  destruct w as [d f [uid conv k] r ov av]; simpl in *. subst uid conv.
  run_main. rewrite Hnonempty; reflexivity.
Qed.

Lemma main_idle_eq (ui : UI) (w : World) (u : string) (c : list Message) :
  user_id (session_state w) = Some u ->
  str_bool u = true ->
  conversation (session_state w) = Some c ->
  send_requested ui w = false ->
  list_bool c && last_role_is_user c = false ->
  main ui w = (inr tt, with_input_key w).
Proof.
  intros Hu Hnonempty Hc Hsend Hlast.
  unfold send_requested, with_input_key in *.
  destruct w as [d f [uid conv k] r ov av]; simpl in *. subst uid conv.
  destruct k as [k|]; simpl in Hsend |- *.
  all: run_main.
  all: rewrite Hnonempty; simpl.
  all: rewrite Hsend; simpl.
  all: rewrite Hlast; reflexivity.
Qed.

Lemma last_role_is_user_inv (c : list Message) :
  list_bool c && last_role_is_user c = true ->
  exists hist m, c = hist ++ [m] /\ role m = "user".
Proof.
  intros H. apply andb_true_iff in H as [_ H].
  unfold last_role_is_user in H.
  destruct (last c) as [m|] eqn:Hl; [|discriminate].
  apply last_Some in Hl as [hist ->].
  exists hist, m. split; [done|]. by apply String.eqb_eq.
Qed.

Lemma db_update_ext (u : string) (l : list Message) (w1 w2 : World) :
  db w1 = db w2 ->
  db (snd (update_conversation_messages u l w1)) =
  db (snd (update_conversation_messages u l w2)).
Proof.
  intros H. rewrite !update_conversation_messages_eq.
  destruct (accepted u); simpl; by rewrite H.
Qed.

Lemma str_bool_false (s : string) : str_bool s = false -> s = EmptyString.
Proof. by destruct s. Qed.

(** A call changes the state only by the one request it may add to the log. *)
Lemma get_llm_response_frame_one (h : list Message) (msg : string)
    (provider : option string) (w : World) :
  exists l,
    (length l <= 1)%nat
    /\ snd (get_llm_response h msg provider w) = set_requests (fun r => r ++ l) w.
Proof.
  assert (Hid : set_requests (fun r => r ++ []) w = w).
  { destruct w; unfold set_requests; simpl. by rewrite app_nil_r. }
  unfold get_llm_response, bind, json_load_prompts, subscript; simpl.
  destruct (prompts_json w) as [| | |fields]; simpl;
    try (exists []; split; [simpl; lia|done]).
  destruct (fields !! "system_prompt") as [p|]; simpl;
    [|exists []; split; [simpl; lia|done]].
  destruct (String.eqb _ "openai").
  - unfold openai_ChatCompletion_create.
    destruct (openai_vendor w _ _) as [e|[cs]]; simpl;
      [eexists (_ :: nil); split; [simpl; lia|done]|].
    destruct cs; simpl; eexists (_ :: nil); (split; [simpl; lia|done]).
  - destruct (String.eqb _ "anthropic"); simpl;
      [|exists []; split; [simpl; lia|done]].
    unfold anthropic_messages_create.
    destruct (anthropic_vendor w _ _) as [e|[bs]]; simpl;
      [eexists (_ :: nil); split; [simpl; lia|done]|].
    destruct bs; simpl; eexists (_ :: nil); (split; [simpl; lia|done]).
Qed.

(** What one run does on an identified session with a conversation loaded:
    it adds at most one message, of role [user] or [assistant], to the session
    and, by an append, to the record of the session's identifier, and sends at
    most one request. *)
Lemma main_identified_effect (ui : UI) (w : World) (u : string) (c : list Message) :
  user_id (session_state w) = Some u ->
  str_bool u = true ->
  conversation (session_state w) = Some c ->
  exists l r,
    Forall chat_role l
    /\ (length r <= 1)%nat
    /\ requests (snd (main ui w)) = requests w ++ r
    /\ user_id (session_state (snd (main ui w))) = Some u
    /\ conversation (session_state (snd (main ui w))) = Some (c ++ l)
    /\ db (snd (main ui w)) =
       match l with
       | [] => db w
       | _ => db (snd (update_conversation_messages u l w))
       end.
Proof.
  intros Hu Hnonempty Hc.
  destruct (send_requested ui w) eqn:Hsend.
  - rewrite (main_send_eq ui w u c Hu Hnonempty Hc Hsend).
    eexists (mkMessage "user" _ :: nil), [].
    split; [constructor; [by left|constructor]|]. split; [simpl; lia|].
    cbn -[update_conversation_messages].
    rewrite !update_conversation_messages_eq.
    destruct (accepted u); simpl; by rewrite Hu, app_nil_r.
  - destruct (list_bool c && last_role_is_user c) eqn:Hlast.
    + destruct (last_role_is_user_inv c Hlast) as (hist & m & -> & Hm).
      rewrite (main_awaiting_eq ui w u hist m Hu Hnonempty Hc Hm Hsend).
      destruct (get_llm_response_frame_one hist (content m) None (with_input_key w))
        as (r & Hr & Hframe).
      destruct (get_llm_response hist (content m) None (with_input_key w))
        as [[e|text] w1]; simpl in Hframe; subst w1.
      * exists [], r. rewrite app_nil_r. simpl. by rewrite Hu, Hc.
      * exists [mkMessage "assistant" text], r.
        split; [constructor; [by right|constructor]|]. split; [done|].
        cbn -[update_conversation_messages].
        rewrite !update_conversation_messages_eq.
        destruct (accepted u); simpl; by rewrite Hu.
    + rewrite (main_idle_eq ui w u c Hu Hnonempty Hc Hsend Hlast).
      exists [], []. rewrite !app_nil_r. simpl. split; [done|].
      split; [lia|]. by rewrite Hu, Hc.
Qed.

(** The same for any run, identified or not. *)
Lemma main_effect (ui : UI) (w : World) :
  exists u l r,
    Forall chat_role l
    /\ (length r <= 1)%nat
    /\ requests (snd (main ui w)) = requests w ++ r
    /\ db (snd (main ui w)) =
       match l with
       | [] => db w
       | _ => db (snd (update_conversation_messages u l w))
       end.
Proof.
  assert (Hnone : forall u : string, exists (u : string) (l : list Message) (r : list Request),
    Forall chat_role l /\ (length r <= 1)%nat /\ requests w = requests w ++ r
    /\ db w = match l with
              | [] => db w
              | _ => db (snd (update_conversation_messages u l w))
              end).
  { intros u. exists u, [], []. rewrite app_nil_r. repeat split; [constructor|simpl; lia]. }
  assert (Hunid :
    (user_id (session_state w) = None \/ user_id (session_state w) = Some EmptyString) ->
    exists u l r,
      Forall chat_role l
      /\ (length r <= 1)%nat
      /\ requests (snd (main ui w)) = requests w ++ r
      /\ db (snd (main ui w)) =
         match l with
         | [] => db w
         | _ => db (snd (update_conversation_messages u l w))
         end).
  { intros Hid. destruct (str_bool (text_input ui)) eqn:Hname.
    - destruct (accepted (text_input ui)) eqn:Hacc.
      + rewrite (main_identify ui w Hid Hname Hacc).
        match goal with |- context [main ui ?x] => set (w0 := x) end.
        destruct (main_identified_effect ui w0 (text_input ui) _ eq_refl Hname eq_refl)
          as (l & r & Hl & Hr & Hreq & _ & _ & Hdb).
        exists (text_input ui), l, r. split; [done|]. split; [done|].
        split; [exact Hreq|]. rewrite Hdb.
        destruct l; [done|]. by apply db_update_ext.
      + rewrite (main_refused_eq ui w Hid Hname Hacc). apply (Hnone EmptyString).
    - rewrite (main_stop_eq ui w Hid Hname). apply (Hnone EmptyString). }
  destruct (user_id (session_state w)) as [u|] eqn:Hu; [|by apply Hunid; left].
  destruct (str_bool u) eqn:Hnonempty.
  - destruct (conversation (session_state w)) as [c|] eqn:Hc.
    + destruct (main_identified_effect ui w u c Hu Hnonempty Hc)
        as (l & r & Hl & Hr & Hreq & _ & _ & Hdb).
      by exists u, l, r.
    + rewrite (main_no_conversation_eq ui w u Hu Hnonempty Hc). apply (Hnone u).
  - apply str_bool_false in Hnonempty as ->. by apply Hunid; right.
Qed.

Lemma chars_lstrip (s : string) :
  list_ascii_of_string (lstrip s) = lstrip_chars (list_ascii_of_string s).
Proof.
  induction s as [|c s IH]; simpl; [done|]. by destruct (isspace c).
Qed.

Lemma chars_rev_app (s1 s2 : string) :
  list_ascii_of_string (String.rev_app s1 s2) =
  rev (list_ascii_of_string s1) ++ list_ascii_of_string s2.
Proof.
  revert s2; induction s1 as [|c s1 IH]; intros s2; simpl; [done|].
  rewrite IH; simpl. by rewrite <- app_assoc.
Qed.

Lemma chars_rev (s : string) :
  list_ascii_of_string (String.rev s) = rev (list_ascii_of_string s).
Proof. unfold String.rev. rewrite chars_rev_app; simpl. apply app_nil_r. Qed.

Lemma chars_strip (s : string) :
  list_ascii_of_string (strip s) =
  rev (lstrip_chars (rev (lstrip_chars (list_ascii_of_string s)))).
Proof.
  unfold strip, rstrip. by rewrite chars_rev, chars_lstrip, chars_rev, chars_lstrip.
Qed.

Lemma first_char_chars (s : string) : first_char s = head (list_ascii_of_string s).
Proof. by destruct s. Qed.

Lemma last_char_chars (s : string) : last_char s = last (list_ascii_of_string s).
Proof.
  induction s as [|c s IH]; simpl; [done|].
  destruct s as [|c' s]; [done|]. exact IH.
Qed.

Lemma lstrip_chars_head (l : list ascii) (c : ascii) :
  head (lstrip_chars l) = Some c -> isspace c = false.
Proof.
  induction l as [|a l IH]; simpl; [done|].
  destruct (isspace a) eqn:Ha; [exact IH|]. simpl. congruence.
Qed.

Lemma lstrip_chars_suffix (l : list ascii) :
  exists ws, l = ws ++ lstrip_chars l.
Proof.
  induction l as [|a l [ws IH]]; simpl; [by exists []|].
  destruct (isspace a).
  - exists (a :: ws). simpl. by rewrite <- IH.
  - by exists [].
Qed.

Lemma last_rev_head {A} (l : list A) : last (rev l) = head l.
Proof.
  destruct l as [|a l]; simpl; [done|]. by rewrite last_snoc.
Qed.

Lemma strip_chars_trimmed (l : list ascii) (c : ascii) :
  let t := rev (lstrip_chars (rev (lstrip_chars l))) in
  (head t = Some c \/ last t = Some c) -> isspace c = false.
Proof.
  intros t [Hh|Hl]; subst t.
  - destruct (lstrip_chars_suffix (rev (lstrip_chars l))) as [ws Hws].
    apply (f_equal (@rev ascii)) in Hws.
    rewrite rev_involutive, rev_app_distr in Hws.
    apply (lstrip_chars_head l c). rewrite Hws.
    destruct (rev (lstrip_chars (rev (lstrip_chars l)))); [discriminate|].
    exact Hh.
  - rewrite last_rev_head in Hl. by apply lstrip_chars_head in Hl.
Qed.

Lemma strip_trimmed (s : string) (c : ascii) :
  first_char (strip s) = Some c \/ last_char (strip s) = Some c ->
  isspace c = false.
Proof.
  rewrite first_char_chars, last_char_chars, chars_strip.
  apply strip_chars_trimmed.
Qed.

(** ** Further properties of the conversation store *)

(** X1: two appends to one identifier leave the state a single append of the
    two sequences put together leaves. *)
Theorem update_twice_is_update_app (w : World) (u : string) (a b : list Message) :
  snd (update_conversation_messages u b (snd (update_conversation_messages u a w))) =
  snd (update_conversation_messages u (a ++ b) w).
Proof.
  rewrite (update_conversation_messages_eq u a w),
    (update_conversation_messages_eq u (a ++ b) w).
  destruct (accepted u) eqn:Hacc; simpl.
  - rewrite update_conversation_messages_eq, Hacc; simpl.
    rewrite lookup_insert_eq. unfold set_db; simpl. f_equal.
    rewrite insert_insert_eq. f_equal.
    destruct (db w !! u) as [old|]; simpl; by rewrite ?app_assoc.
  - by rewrite update_conversation_messages_eq, Hacc.
Qed.

(** X2: appends to two different identifiers can be made in either order. *)
Theorem update_commutes (w : World) (u1 u2 : string) (a b : list Message) :
  u1 <> u2 ->
  snd (update_conversation_messages u1 a (snd (update_conversation_messages u2 b w))) =
  snd (update_conversation_messages u2 b (snd (update_conversation_messages u1 a w))).
Proof.
  intros Hne.
  rewrite (update_conversation_messages_eq u2 b w),
    (update_conversation_messages_eq u1 a w).
  destruct (accepted u1) eqn:H1, (accepted u2) eqn:H2; simpl;
    rewrite !update_conversation_messages_eq, ?H1, ?H2; simpl; try done.
  rewrite !lookup_insert_ne by congruence.
  unfold set_db; simpl. f_equal. by apply insert_insert_ne.
Qed.

Lemma update_commutes_witness :
  "Sam" <> "Kim" /\
  snd (update_conversation_messages "Sam" [Sample.hi]
         (snd (update_conversation_messages "Kim" [Sample.hello] Sample.world_sam))) =
  snd (update_conversation_messages "Kim" [Sample.hello]
         (snd (update_conversation_messages "Sam" [Sample.hi] Sample.world_sam))).
Proof.
  assert (Hne : "Sam" <> "Kim") by discriminate.
  split; [exact Hne|].
  exact (update_commutes Sample.world_sam "Sam" "Kim" [Sample.hi] [Sample.hello] Hne).
Defined.

(** X3: on an identifier the client takes, an append always leaves a record
    that has the field [conversation], even an append of no message: the
    record is created when the identifier had none, and the field is added,
    beside the fields the record has, when the record lacked it; a read
    creates nothing, an append does.  On an identifier the client refuses the
    append raises and leaves the state as it was. *)
Theorem update_creates_record (w : World) (u : string) (msgs : list Message) :
  (accepted u = true -> db w !! u = None ->
     db (snd (update_conversation_messages u msgs w)) !! u =
       Some (mkDocument (Some msgs) ∅))
  /\ (forall d,
        accepted u = true ->
        db w !! u = Some d -> doc_conversation d = None ->
        db (snd (update_conversation_messages u msgs w)) !! u =
          Some (mkDocument (Some msgs) (doc_others d)))
  /\ (accepted u = false ->
      update_conversation_messages u msgs w = (inl odd_path_error, w)).
Proof.
  split; [|split].
  - intros Hu Hnone. rewrite update_conversation_messages_eq, Hu; simpl.
    by rewrite lookup_insert_eq, Hnone.
  - intros d Hu Hd Hfield. rewrite update_conversation_messages_eq, Hu; simpl.
    rewrite lookup_insert_eq, Hd. unfold dict_get_conversation. by rewrite Hfield.
  - intros Hu. by rewrite update_conversation_messages_eq, Hu.
Qed.

Lemma update_creates_record_witness :
  (accepted "Sam" = true /\ db Sample.world !! "Sam" = None /\
   db (snd (update_conversation_messages "Sam" [] Sample.world)) !! "Sam" =
     Some (mkDocument (Some []) ∅))
  /\ (accepted "Kim" = true /\
      db Sample.world_sam !! "Kim" = Some Sample.bare /\
      doc_conversation Sample.bare = None /\
      db (snd (update_conversation_messages "Kim" [Sample.hi] Sample.world_sam)) !! "Kim" =
        Some (mkDocument (Some [Sample.hi]) (doc_others Sample.bare)))
  /\ (accepted "Sam/Kim" = false /\
      update_conversation_messages "Sam/Kim" [Sample.hi] Sample.world =
        (inl odd_path_error, Sample.world)).
Proof.
  split; [|split].
  - split; [reflexivity|]. split; [reflexivity|].
    exact (proj1 (update_creates_record Sample.world "Sam" []) eq_refl eq_refl).
  - split; [reflexivity|]. split; [reflexivity|]. split; [reflexivity|].
    exact (proj1 (proj2 (update_creates_record Sample.world_sam "Kim" [Sample.hi]))
             Sample.bare eq_refl eq_refl eq_refl).
  - split; [reflexivity|].
    exact (proj2 (proj2 (update_creates_record Sample.world "Sam/Kim" [Sample.hi]))
             eq_refl).
Defined.

(** ** Further properties of the response generator *)

(** X4: what a vendor raises comes out of the call as it is, and an answer
    without any choice or content block makes the call raise [IndexError];
    in both cases the request has been sent. *)
Theorem vendor_failure_propagates (w : World) (fields : gmap string string)
    (p : string) (h : list Message) (msg : string) :
  prompts_json w = JsonObject fields ->
  fields !! "system_prompt" = Some p ->
  let ra := mkAnthropicRequest "claude-3-5-sonnet-20241022" 1000
              (filter chat_role h ++ [mkMessage "user" msg]) p in
  let ro := mkOpenAIRequest "gpt-4o"
              ([mkMessage "system" p] ++ h ++ [mkMessage "user" msg]) 1 in
  (forall e, anthropic_vendor w (requests w) ra = inl e ->
     get_llm_response h msg (Some "anthropic") w =
       (inl e, set_requests (fun l => l ++ [AnthropicCall ra]) w))
  /\ (anthropic_vendor w (requests w) ra = inr (mkAnthropicMessage []) ->
      get_llm_response h msg (Some "anthropic") w =
        (inl IndexError, set_requests (fun l => l ++ [AnthropicCall ra]) w))
  /\ (forall e, openai_vendor w (requests w) ro = inl e ->
      get_llm_response h msg (Some "openai") w =
        (inl e, set_requests (fun l => l ++ [OpenAICall ro]) w))
  /\ (openai_vendor w (requests w) ro = inr (mkChatCompletion []) ->
      get_llm_response h msg (Some "openai") w =
        (inl IndexError, set_requests (fun l => l ++ [OpenAICall ro]) w)).
Proof.
  intros Hfile Hfield ra ro.
  pose proof (get_llm_response_anthropic_eq h msg w fields p Hfile Hfield) as Ha.
  pose proof (get_llm_response_openai_eq h msg w fields p Hfile Hfield) as Ho.
  subst ra ro. cbv zeta in Ha, Ho. change ([?x] ++ ?l) with (x :: l).
  split; [|split; [|split]].
  - intros e He. by rewrite Ha, He.
  - intros He. by rewrite Ha, He.
  - intros e He. by rewrite Ho, He.
  - intros He. by rewrite Ho, He.
Qed.

Lemma vendor_failure_propagates_witness :
  prompts_json Sample.world_down = JsonObject Sample.prompts /\
  Sample.prompts !! "system_prompt" = Some "You are Tuco." /\
  get_llm_response [] "hi" (Some "anthropic") Sample.world_down =
    (inl (VendorError "overloaded"),
     set_requests
       (fun l => l ++ [AnthropicCall
                         (mkAnthropicRequest "claude-3-5-sonnet-20241022" 1000
                            [mkMessage "user" "hi"] "You are Tuco.")])
       Sample.world_down) /\
  get_llm_response [] "hi" (Some "anthropic") Sample.world_mute =
    (inl IndexError,
     set_requests
       (fun l => l ++ [AnthropicCall
                         (mkAnthropicRequest "claude-3-5-sonnet-20241022" 1000
                            [mkMessage "user" "hi"] "You are Tuco.")])
       Sample.world_mute).
Proof.
  split; [reflexivity|]. split; [reflexivity|]. split.
  - exact (proj1 (vendor_failure_propagates Sample.world_down Sample.prompts
                    "You are Tuco." [] "hi" eq_refl eq_refl)
             (VendorError "overloaded") eq_refl).
  - exact (proj1 (proj2 (vendor_failure_propagates Sample.world_mute Sample.prompts
                           "You are Tuco." [] "hi" eq_refl eq_refl))
             eq_refl).
Defined.

(** X5: whatever the provider, the history and the outcome, a call leaves the
    store, the session state and the prompt file as they were: it changes the
    state by at most one request added to the log. *)
Theorem get_llm_response_only_logs (h : list Message) (msg : string)
    (provider : option string) (w : World) :
  let w' := snd (get_llm_response h msg provider w) in
  db w' = db w
  /\ session_state w' = session_state w
  /\ prompts_json w' = prompts_json w
  /\ exists l, (length l <= 1)%nat /\ requests w' = requests w ++ l.
Proof.
  intros w'. subst w'.
  destruct (get_llm_response_frame_one h msg provider w) as (l & Hl & ->).
  repeat split. by exists l.
Qed.

Lemma filter_chat_role_id (h : list Message) :
  Forall chat_role h -> filter chat_role h = h.
Proof.
  induction 1 as [|m h Hm _ IH]; [done|].
  rewrite filter_cons_True by done. by rewrite IH.
Qed.

(** X6: on a history made of [user] and [assistant] messages only, the two
    providers are sent the same turns: the Anthropic list is the history
    followed by the new user message, and the OpenAI list is that list behind
    the [system] entry. *)
Theorem providers_agree_on_chat_history (w : World) (fields : gmap string string)
    (p : string) (h : list Message) (msg : string) :
  prompts_json w = JsonObject fields ->
  fields !! "system_prompt" = Some p ->
  Forall chat_role h ->
  exists ra ro,
    requests (snd (get_llm_response h msg (Some "anthropic") w)) =
      requests w ++ [AnthropicCall ra]
    /\ requests (snd (get_llm_response h msg (Some "openai") w)) =
      requests w ++ [OpenAICall ro]
    /\ an_messages ra = h ++ [mkMessage "user" msg]
    /\ oa_messages ro = mkMessage "system" (an_system ra) :: an_messages ra.
Proof.
  intros Hfile Hfield Hh.
  eexists _, _. split; [|split; [|split]].
  - by rewrite (get_llm_response_anthropic_eq h msg w fields p Hfile Hfield).
  - by rewrite (get_llm_response_openai_eq h msg w fields p Hfile Hfield).
  - simpl. by rewrite filter_chat_role_id.
  - simpl. by rewrite filter_chat_role_id.
Qed.

Lemma providers_agree_on_chat_history_witness :
  prompts_json Sample.world = JsonObject Sample.prompts /\
  Sample.prompts !! "system_prompt" = Some "You are Tuco." /\
  Forall chat_role [Sample.hi; Sample.hello] /\
  exists ra ro,
    requests (snd (get_llm_response [Sample.hi; Sample.hello] "more"
                     (Some "anthropic") Sample.world)) =
      requests Sample.world ++ [AnthropicCall ra]
    /\ requests (snd (get_llm_response [Sample.hi; Sample.hello] "more"
                        (Some "openai") Sample.world)) =
      requests Sample.world ++ [OpenAICall ro]
    /\ an_messages ra = [Sample.hi; Sample.hello] ++ [mkMessage "user" "more"]
    /\ oa_messages ro = mkMessage "system" (an_system ra) :: an_messages ra.
Proof.
  assert (Hh : Forall chat_role [Sample.hi; Sample.hello]).
  { constructor; [by left|]. constructor; [by right|]. constructor. }
  split; [reflexivity|]. split; [reflexivity|]. split; [exact Hh|].
  exact (providers_agree_on_chat_history Sample.world Sample.prompts "You are Tuco."
           [Sample.hi; Sample.hello] "more" eq_refl eq_refl Hh).
Defined.

(** ** Further properties of the session loop *)

(** X7: while no identifier has been given, a run with an empty identifier
    field stops at once: nothing is read from the store, no conversation is
    loaded, nothing is written and nothing is sent. *)
Theorem main_empty_identifier (ui : UI) (w : World) :
  (user_id (session_state w) = None \/ user_id (session_state w) = Some EmptyString) ->
  str_bool (text_input ui) = false ->
  let w' := snd (main ui w) in
  fst (main ui w) = inl StopException
  /\ conversation (session_state w') = conversation (session_state w)
  /\ user_input_key (session_state w') = user_input_key (session_state w)
  /\ db w' = db w
  /\ requests w' = requests w.
Proof.
  intros Hid Hname w'. subst w'.
  by rewrite (main_stop_eq ui w Hid Hname).
Qed.

Lemma main_empty_identifier_witness :
  (user_id (session_state Sample.world) = None \/
   user_id (session_state Sample.world) = Some EmptyString) /\
  str_bool (text_input Sample.ui_idle) = false /\
  fst (main Sample.ui_idle Sample.world) = inl StopException /\
  db (snd (main Sample.ui_idle Sample.world)) = db Sample.world.
Proof.
  assert (Hid : user_id (session_state Sample.world) = None \/
                user_id (session_state Sample.world) = Some EmptyString) by (by left).
  split; [exact Hid|]. split; [reflexivity|].
  pose proof (main_empty_identifier Sample.ui_idle Sample.world Hid eq_refl) as H.
  split; [exact (proj1 H) | exact (proj1 (proj2 (proj2 (proj2 H))))].
Defined.

(** X8: the run in which an identifier is given on which the read of the
    store succeeds, that is, one the client takes, loads the stored
    conversation into the session; when nothing is sent in that run and the
    stored conversation does not end with a user message, the run ends
    normally with the store and the log of requests as they were, so that a
    new name the client takes gets an empty conversation and no record. *)
Theorem main_loads_conversation (ui : UI) (w : World) (c : list Message) :
  (user_id (session_state w) = None \/ user_id (session_state w) = Some EmptyString) ->
  str_bool (text_input ui) = true ->
  fst (get_conversation (text_input ui) w) = inr c ->
  send_requested ui w = false ->
  list_bool c && last_role_is_user c = false ->
  main ui w =
  (inr tt,
   set_session_state
     (fun s => mkSessionState (Some (text_input ui)) (Some c)
                 (Some (default 0 (user_input_key s)))) w).
Proof.
  intros Hid Hname Hc Hsend Hlast.
  pose proof (get_conversation_accepted _ _ _ Hc) as Hacc.
  rewrite get_conversation_eq, Hacc in Hc; simpl in Hc. injection Hc as Hc.
  rewrite (main_identify ui w Hid Hname Hacc), Hc.
  match goal with |- main ui ?x = _ => set (w0 := x) end.
  by rewrite (main_idle_eq ui w0 (text_input ui) c eq_refl Hname eq_refl Hsend Hlast).
Qed.

Lemma main_loads_conversation_witness :
  (user_id (session_state Sample.world_sam) = None \/
   user_id (session_state Sample.world_sam) = Some EmptyString) /\
  str_bool (text_input (Sample.ui_name "Sam")) = true /\
  fst (get_conversation (text_input (Sample.ui_name "Sam")) Sample.world_sam) =
    inr [Sample.hi; Sample.hello] /\
  send_requested (Sample.ui_name "Sam") Sample.world_sam = false /\
  list_bool [Sample.hi; Sample.hello] && last_role_is_user [Sample.hi; Sample.hello] = false /\
  main (Sample.ui_name "Sam") Sample.world_sam =
  (inr tt,
   set_session_state
     (fun s => mkSessionState (Some "Sam") (Some [Sample.hi; Sample.hello])
                 (Some (default 0 (user_input_key s)))) Sample.world_sam).
Proof.
  assert (Hid : user_id (session_state Sample.world_sam) = None \/
                user_id (session_state Sample.world_sam) = Some EmptyString) by (by left).
  split; [exact Hid|]. do 4 (split; [reflexivity|]).
  exact (main_loads_conversation (Sample.ui_name "Sam") Sample.world_sam
           [Sample.hi; Sample.hello] Hid eq_refl eq_refl eq_refl eq_refl).
Defined.

(** X9: when the stored conversation of the identifier given ends with a user
    message, a conversation left without its reply, the run that loads it
    goes on to generate the reply: its outcome is the one of the generator
    called on the stored messages but the last and on the content of the
    last. *)
Theorem main_resumes_pending_reply (ui : UI) (w : World) (hist : list Message) (m : Message) :
  (user_id (session_state w) = None \/ user_id (session_state w) = Some EmptyString) ->
  str_bool (text_input ui) = true ->
  fst (get_conversation (text_input ui) w) = inr (hist ++ [m]) ->
  role m = "user" ->
  send_requested ui w = false ->
  let w0 := set_session_state
              (fun s => mkSessionState (Some (text_input ui)) (Some (hist ++ [m]))
                          (Some (default 0 (user_input_key s)))) w in
  main ui w =
  match get_llm_response hist (content m) None w0 with
  | (inr text, w1) =>
      (inl RerunException,
       snd (update_conversation_messages (text_input ui) [mkMessage "assistant" text]
              (snd (set_conversation ((hist ++ [m]) ++ [mkMessage "assistant" text]) w1))))
  | (inl e, w1) => (inl e, w1)
  end.
Proof.
  intros Hid Hname Hc Hm Hsend w0.
  pose proof (get_conversation_accepted _ _ _ Hc) as Hacc.
  rewrite get_conversation_eq, Hacc in Hc; simpl in Hc. injection Hc as Hc.
  rewrite (main_identify ui w Hid Hname Hacc), Hc.
  match goal with |- main ui ?x = _ => set (w1 := x) end.
  rewrite (main_awaiting_eq ui w1 (text_input ui) hist m eq_refl Hname eq_refl Hm Hsend).
  by rewrite Hacc.
Qed.

Lemma main_resumes_pending_reply_witness :
  (user_id (session_state Sample.world_pending) = None \/
   user_id (session_state Sample.world_pending) = Some EmptyString) /\
  str_bool (text_input (Sample.ui_name "Sam")) = true /\
  fst (get_conversation (text_input (Sample.ui_name "Sam")) Sample.world_pending) =
    inr ([] ++ [Sample.stuck]) /\
  role Sample.stuck = "user" /\
  send_requested (Sample.ui_name "Sam") Sample.world_pending = false /\
  fst (main (Sample.ui_name "Sam") Sample.world_pending) = inl RerunException /\
  fst (get_conversation "Sam" (snd (main (Sample.ui_name "Sam") Sample.world_pending))) =
    inr [Sample.stuck; mkMessage "assistant" "Tell me more."].
Proof.
  assert (Hid : user_id (session_state Sample.world_pending) = None \/
                user_id (session_state Sample.world_pending) = Some EmptyString)
    by (by left).
  split; [exact Hid|]. do 4 (split; [reflexivity|]).
  rewrite (main_resumes_pending_reply (Sample.ui_name "Sam") Sample.world_pending
             [] Sample.stuck Hid eq_refl eq_refl eq_refl eq_refl).
  split; reflexivity.
Defined.

(** X20: the run in which a non-empty identifier is given that the client
    refuses raises the error of the client: the identifier stays in the
    session, no conversation is loaded, and the store and the log of requests
    are as they were; every later run of that session then raises on the
    missing conversation, whatever the browser reports. *)
Theorem main_refused_identifier (ui ui' : UI) (w : World) :
  (user_id (session_state w) = None \/ user_id (session_state w) = Some EmptyString) ->
  conversation (session_state w) = None ->
  str_bool (text_input ui) = true ->
  accepted (text_input ui) = false ->
  let w' := snd (main ui w) in
  fst (main ui w) = inl odd_path_error
  /\ user_id (session_state w') = Some (text_input ui)
  /\ conversation (session_state w') = None
  /\ db w' = db w
  /\ requests w' = requests w
  /\ main ui' w' = (inl (AttributeError "conversation"), w').
Proof.
  intros Hid Hc Hname Hacc w'. subst w'.
  rewrite (main_refused_eq ui w Hid Hname Hacc); simpl.
  rewrite Hc. repeat split.
  apply (main_no_conversation_eq ui' _ (text_input ui)); [done|exact Hname|].
  simpl. exact Hc.
Qed.

Lemma main_refused_identifier_witness :
  (user_id (session_state Sample.world) = None \/
   user_id (session_state Sample.world) = Some EmptyString) /\
  conversation (session_state Sample.world) = None /\
  str_bool (text_input (Sample.ui_name "Sam/Kim")) = true /\
  accepted (text_input (Sample.ui_name "Sam/Kim")) = false /\
  fst (main (Sample.ui_name "Sam/Kim") Sample.world) = inl odd_path_error /\
  fst (main Sample.ui_idle (snd (main (Sample.ui_name "Sam/Kim") Sample.world))) =
    inl (AttributeError "conversation").
Proof.
  assert (Hid : user_id (session_state Sample.world) = None \/
                user_id (session_state Sample.world) = Some EmptyString) by (by left).
  split; [exact Hid|]. do 3 (split; [reflexivity|]).
  pose proof (main_refused_identifier (Sample.ui_name "Sam/Kim") Sample.ui_idle
                Sample.world Hid eq_refl eq_refl eq_refl) as H.
  split; [exact (proj1 H)|].
  by rewrite (proj2 (proj2 (proj2 (proj2 (proj2 H))))).
Defined.

Lemma str_bool_strip (s : string) : str_bool (strip s) = true -> str_bool s = true.
Proof. by destruct s. Qed.

Lemma send_requested_iff_aux (ui : UI) (w : World) :
  send_requested ui w =
  str_bool (strip (text_area ui
     ("user_input_" +:+ pretty (default 0 (user_input_key (session_state w))))))
  && send_requested ui w.
Proof.
  unfold send_requested.
  by destruct (str_bool (strip _)); rewrite ?andb_false_r.
Qed.

(** X10: a message is sent exactly when its text, stripped, is not empty and
    either the button was clicked or the text has no line break; the tests
    the source makes on the raw text add nothing to that. *)
Theorem send_requested_iff (ui : UI) (w : World) :
  let key := default 0 (user_input_key (session_state w)) in
  let user_input := text_area ui ("user_input_" +:+ pretty key) in
  send_requested ui w =
  str_bool (strip user_input) && (button ui || negb (contains_newline user_input)).
Proof.
  intros key user_input. unfold send_requested. fold key. fold user_input.
  destruct (str_bool (strip user_input)) eqn:Hs.
  - rewrite (str_bool_strip _ Hs). by destruct (button ui), (contains_newline user_input).
  - by rewrite !andb_false_r.
Qed.

(** X11: a run in which a message is sent, on an identified session with a
    conversation loaded: the user message holding the stripped text is added
    at the end of the session conversation and of the stored one, the widget
    counter goes up by one, no request is sent and the script is rerun.  (A
    session holds a conversation under an identifier the client takes; on one
    it refuses, the append to the store raises before the counter moves.) *)
Theorem main_send (ui : UI) (w : World) (u : string) (c : list Message) :
  user_id (session_state w) = Some u ->
  str_bool u = true ->
  conversation (session_state w) = Some c ->
  send_requested ui w = true ->
  let key := default 0 (user_input_key (session_state w)) in
  let user_message :=
    mkMessage "user" (strip (text_area ui ("user_input_" +:+ pretty key))) in
  let w' := snd (main ui w) in
  fst (main ui w) = inl (if accepted u then RerunException else odd_path_error)
  /\ conversation (session_state w') = Some (c ++ [user_message])
  /\ fst (get_conversation u w') =
       match fst (get_conversation u w) with
       | inr stored => inr (stored ++ [user_message])
       | inl e => inl e
       end
  /\ user_input_key (session_state w') = Some (if accepted u then key + 1 else key)
  /\ user_id (session_state w') = Some u
  /\ requests w' = requests w.
Proof.
  intros Hu Hnonempty Hc Hsend key user_message w'. subst w'.
  rewrite (main_send_eq ui w u c Hu Hnonempty Hc Hsend).
  fold key. fold user_message.
  cbn -[update_conversation_messages get_conversation].
  split; [done|]. split; [done|]. split; [|split; [done|]].
  - rewrite <- get_after_update.
    rewrite !get_conversation_eq, update_conversation_messages_eq.
    by destruct (accepted u).
  - rewrite update_conversation_messages_eq.
    destruct (accepted u); simpl; by rewrite Hu.
Qed.

Lemma main_send_witness :
  user_id (session_state Sample.world_replied) = Some "Sam" /\
  str_bool "Sam" = true /\
  conversation (session_state Sample.world_replied) =
    Some [Sample.stuck; mkMessage "assistant" "Tell me more."] /\
  send_requested (Sample.ui_send "user_input_1" " It is work. ") Sample.world_replied = true /\
  conversation (session_state
    (snd (main (Sample.ui_send "user_input_1" " It is work. ") Sample.world_replied))) =
    Some [Sample.stuck; mkMessage "assistant" "Tell me more.";
          mkMessage "user" "It is work."] /\
  user_input_key (session_state
    (snd (main (Sample.ui_send "user_input_1" " It is work. ") Sample.world_replied))) =
    Some 2.
Proof.
  do 4 (split; [reflexivity|]).
  pose proof (main_send (Sample.ui_send "user_input_1" " It is work. ")
                Sample.world_replied "Sam"
                [Sample.stuck; mkMessage "assistant" "Tell me more."]
                eq_refl eq_refl eq_refl eq_refl) as H.
  split; [exact (proj1 (proj2 H)) | exact (proj1 (proj2 (proj2 (proj2 H))))].
Defined.

(** X12: the user message a run stores is never empty and neither starts nor
    ends with a white-space character. *)
Theorem main_send_trimmed (ui : UI) (w : World) (u : string) (c : list Message) :
  user_id (session_state w) = Some u ->
  str_bool u = true ->
  conversation (session_state w) = Some c ->
  send_requested ui w = true ->
  exists m,
    conversation (session_state (snd (main ui w))) = Some (c ++ [m])
    /\ role m = "user"
    /\ str_bool (content m) = true
    /\ (forall ch, first_char (content m) = Some ch -> isspace ch = false)
    /\ (forall ch, last_char (content m) = Some ch -> isspace ch = false).
Proof.
  intros Hu Hnonempty Hc Hsend.
  rewrite (main_send_eq ui w u c Hu Hnonempty Hc Hsend).
  eexists (mkMessage "user" _). split; [reflexivity|]. split; [reflexivity|].
  simpl. split; [|split].
  - rewrite send_requested_iff_aux in Hsend. by apply andb_true_iff in Hsend as [? _].
  - intros ch Hch. eapply strip_trimmed. left. exact Hch.
  - intros ch Hch. eapply strip_trimmed. right. exact Hch.
Qed.

Lemma main_send_trimmed_witness :
  user_id (session_state Sample.world_replied) = Some "Sam" /\
  str_bool "Sam" = true /\
  conversation (session_state Sample.world_replied) =
    Some [Sample.stuck; mkMessage "assistant" "Tell me more."] /\
  send_requested (Sample.ui_send "user_input_1" " It is work. ") Sample.world_replied = true /\
  exists m,
    conversation (session_state
      (snd (main (Sample.ui_send "user_input_1" " It is work. ") Sample.world_replied))) =
      Some ([Sample.stuck; mkMessage "assistant" "Tell me more."] ++ [m])
    /\ role m = "user"
    /\ str_bool (content m) = true
    /\ (forall ch, first_char (content m) = Some ch -> isspace ch = false)
    /\ (forall ch, last_char (content m) = Some ch -> isspace ch = false).
Proof.
  do 4 (split; [reflexivity|]).
  exact (main_send_trimmed (Sample.ui_send "user_input_1" " It is work. ")
           Sample.world_replied "Sam"
           [Sample.stuck; mkMessage "assistant" "Tell me more."]
           eq_refl eq_refl eq_refl eq_refl).
Defined.

(** X13: on an identified session whose conversation does not end with a user
    message, a run whose text is empty or made of white space only does
    nothing, even with the button clicked: it ends normally and the
    conversation, the store and the log of requests are as they were. *)
Theorem main_blank_input (ui : UI) (w : World) (u : string) (c : list Message) :
  user_id (session_state w) = Some u ->
  str_bool u = true ->
  conversation (session_state w) = Some c ->
  list_bool c && last_role_is_user c = false ->
  let key := default 0 (user_input_key (session_state w)) in
  str_bool (strip (text_area ui ("user_input_" +:+ pretty key))) = false ->
  main ui w = (inr tt, with_input_key w).
Proof.
  intros Hu Hnonempty Hc Hlast key Hblank.
  apply (main_idle_eq ui w u c Hu Hnonempty Hc); [|exact Hlast].
  rewrite send_requested_iff_aux. fold key. by rewrite Hblank.
Qed.

Lemma main_blank_input_witness :
  user_id (session_state Sample.world_replied) = Some "Sam" /\
  str_bool "Sam" = true /\
  conversation (session_state Sample.world_replied) =
    Some [Sample.stuck; mkMessage "assistant" "Tell me more."] /\
  list_bool [Sample.stuck; mkMessage "assistant" "Tell me more."]
  && last_role_is_user [Sample.stuck; mkMessage "assistant" "Tell me more."] = false /\
  str_bool (strip (text_area Sample.ui_blank
     ("user_input_" +:+
      pretty (default 0 (user_input_key (session_state Sample.world_replied)))))) = false /\
  button Sample.ui_blank = true /\
  main Sample.ui_blank Sample.world_replied = (inr tt, with_input_key Sample.world_replied).
Proof.
  do 4 (split; [reflexivity|]). split; [reflexivity|]. split; [reflexivity|].
  exact (main_blank_input Sample.ui_blank Sample.world_replied "Sam"
           [Sample.stuck; mkMessage "assistant" "Tell me more."]
           eq_refl eq_refl eq_refl eq_refl eq_refl).
Defined.

(** X14: when the generator raises, the run raises the same exception and
    appends nothing: the session conversation still ends with the user
    message, the store is as it was, and the session is still waiting for
    the reply. *)
Theorem main_generation_failure (ui : UI) (w w1 : World) (u : string)
    (hist : list Message) (m : Message) (e : Exception) :
  user_id (session_state w) = Some u ->
  str_bool u = true ->
  conversation (session_state w) = Some (hist ++ [m]) ->
  role m = "user" ->
  send_requested ui w = false ->
  get_llm_response hist (content m) None (with_input_key w) = (inl e, w1) ->
  main ui w = (inl e, w1)
  /\ user_id (session_state w1) = Some u
  /\ conversation (session_state w1) = Some (hist ++ [m])
  /\ db w1 = db w.
Proof.
  intros Hu Hnonempty Hc Hm Hsend Hgen.
  rewrite (main_awaiting_eq ui w u hist m Hu Hnonempty Hc Hm Hsend), Hgen.
  destruct (get_llm_response_frame hist (content m) None (with_input_key w))
    as (l & Hframe).
  rewrite Hgen in Hframe; simpl in Hframe. subst w1. simpl.
  by rewrite Hu, Hc.
Qed.

Lemma main_generation_failure_witness :
  user_id (session_state Sample.world_down) = Some "Sam" /\
  str_bool "Sam" = true /\
  conversation (session_state Sample.world_down) = Some ([] ++ [Sample.stuck]) /\
  role Sample.stuck = "user" /\
  send_requested Sample.ui_idle Sample.world_down = false /\
  fst (get_llm_response [] (content Sample.stuck) None
         (with_input_key Sample.world_down)) = inl (VendorError "overloaded") /\
  fst (main Sample.ui_idle Sample.world_down) = inl (VendorError "overloaded") /\
  db (snd (main Sample.ui_idle Sample.world_down)) = db Sample.world_down.
Proof.
  do 6 (split; [reflexivity|]).
  pose proof (main_generation_failure Sample.ui_idle Sample.world_down
                (snd (get_llm_response [] (content Sample.stuck) None
                        (with_input_key Sample.world_down)))
                "Sam" [] Sample.stuck (VendorError "overloaded")
                eq_refl eq_refl eq_refl eq_refl eq_refl eq_refl) as H.
  split.
  - by rewrite (proj1 H).
  - rewrite (proj1 H). exact (proj2 (proj2 (proj2 H))).
Defined.

(** ** Invariants of a session *)

Lemma get_conversation_db (u : string) (w1 w2 : World) :
  db w1 = db w2 -> fst (get_conversation u w1) = fst (get_conversation u w2).
Proof. intros H. rewrite !get_conversation_eq; simpl. by rewrite H. Qed.

Lemma get_other_after_update (u0 u : string) (l : list Message) (w : World) :
  u0 <> u ->
  fst (get_conversation u0 (snd (update_conversation_messages u l w))) =
  fst (get_conversation u0 w).
Proof.
  intros Hne. rewrite update_conversation_messages_eq, !get_conversation_eq.
  destruct (accepted u); simpl; [|done]. by rewrite lookup_insert_ne.
Qed.

Lemma main_append_only (ui : UI) (w : World) (u0 : string) :
  exists l,
    Forall chat_role l
    /\ fst (get_conversation u0 (snd (main ui w))) =
       match fst (get_conversation u0 w) with
       | inr c => inr (c ++ l)
       | inl e => inl e
       end.
Proof.
  destruct (main_effect ui w) as (u & l & r & Hl & _ & _ & Hdb).
  assert (Hsame : fst (get_conversation u0 w) =
                  match fst (get_conversation u0 w) with
                  | inr c => inr (c ++ [])
                  | inl e => inl e
                  end).
  { destruct (fst (get_conversation u0 w)); [done|]. by rewrite app_nil_r. }
  destruct l as [|m l].
  - exists []. split; [constructor|].
    by rewrite (get_conversation_db u0 _ _ Hdb).
  - rewrite (get_conversation_db u0 _ _ Hdb).
    destruct (decide (u0 = u)) as [->|Hne].
    + exists (m :: l). split; [exact Hl|]. apply get_after_update.
    + exists []. split; [constructor|]. by rewrite get_other_after_update.
Qed.

(** X15: over a whole session, whatever the browser reports and whatever the
    vendors answer, the stored conversation of every identifier only grows
    at its end, by messages of role [user] or [assistant]: nothing stored is
    removed, reordered or rewritten.  (The conversation of an identifier is
    what a read returns for it; the read of an identifier the client refuses
    raises before the session as after it.) *)
Theorem session_append_only (uis : list UI) (w : World) (u : string) :
  exists l,
    Forall chat_role l
    /\ fst (get_conversation u (run_session uis w)) =
       match fst (get_conversation u w) with
       | inr c => inr (c ++ l)
       | inl e => inl e
       end.
Proof.
  revert w; induction uis as [|ui uis IH]; intros w; cbn [run_session].
  - exists []. split; [constructor|].
    destruct (fst (get_conversation u w)); [done|]. by rewrite app_nil_r.
  - destruct (main_append_only ui w u) as (l1 & Hl1 & Hc1).
    destruct (IH (snd (main ui w))) as (l2 & Hl2 & Hc2).
    exists (l1 ++ l2). split; [by apply Forall_app|].
    rewrite Hc2, Hc1.
    destruct (fst (get_conversation u w)); [done|]. by rewrite app_assoc.
Qed.

Lemma main_keeps_records (ui : UI) (w : World) (u0 : string) (d : Document) :
  db w !! u0 = Some d ->
  exists d', db (snd (main ui w)) !! u0 = Some d' /\ doc_others d' = doc_others d.
Proof.
  intros Hd.
  destruct (main_effect ui w) as (u & l & r & _ & _ & _ & Hdb).
  rewrite Hdb. destruct l as [|m l]; [by exists d|].
  rewrite update_conversation_messages_eq.
  destruct (accepted u); simpl; [|by exists d].
  destruct (decide (u0 = u)) as [->|Hne].
  - rewrite lookup_insert_eq, Hd. by eexists.
  - rewrite lookup_insert_ne by done. by exists d.
Qed.

(** X16: a session deletes no record and leaves the fields of a record other
    than [conversation] as they are. *)
Theorem session_keeps_records (uis : list UI) (w : World) (u : string) (d : Document) :
  db w !! u = Some d ->
  exists d', db (run_session uis w) !! u = Some d' /\ doc_others d' = doc_others d.
Proof.
  revert w d; induction uis as [|ui uis IH]; intros w d Hd; simpl.
  - by exists d.
  - destruct (main_keeps_records ui w u d Hd) as (d1 & Hd1 & Ho1).
    destruct (IH _ d1 Hd1) as (d2 & Hd2 & Ho2).
    exists d2. split; [exact Hd2|]. by rewrite Ho2.
Qed.

Lemma session_keeps_records_witness :
  db Sample.world_sam !! "Sam" = Some Sample.sam /\
  exists d',
    db (run_session [Sample.ui_name "Sam";
                     Sample.ui_send "user_input_0" "I feel stuck";
                     Sample.ui_idle] Sample.world_sam) !! "Sam" = Some d'
    /\ doc_others d' = doc_others Sample.sam.
Proof.
  split; [reflexivity|].
  exact (session_keeps_records _ Sample.world_sam "Sam" Sample.sam eq_refl).
Defined.

Lemma main_in_sync_identified (ui : UI) (w : World) (u : string) :
  user_id (session_state w) = Some u ->
  str_bool u = true ->
  in_sync w -> in_sync (snd (main ui w)).
Proof.
  intros Hu Hnonempty Hsync.
  destruct (conversation (session_state w)) as [c|] eqn:Hc.
  - destruct (main_identified_effect ui w u c Hu Hnonempty Hc)
      as (l & r & _ & _ & _ & Hu' & Hc' & Hdb).
    intros c1 Hc1. rewrite Hc' in Hc1. injection Hc1 as <-.
    destruct (Hsync c Hc) as (u1 & Hu1 & _ & Hstored).
    rewrite Hu in Hu1. injection Hu1 as <-.
    exists u. split; [exact Hu'|]. split; [exact Hnonempty|].
    destruct l as [|m l]; rewrite (get_conversation_db u _ _ Hdb).
    + by rewrite app_nil_r.
    + by rewrite get_after_update, Hstored.
  - by rewrite (main_no_conversation_eq ui w u Hu Hnonempty Hc).
Qed.

Lemma main_in_sync (ui : UI) (w : World) :
  in_sync w -> in_sync (snd (main ui w)).
Proof.
  intros Hsync.
  assert (Hunid :
    (user_id (session_state w) = None \/ user_id (session_state w) = Some EmptyString) ->
    in_sync (snd (main ui w))).
  { intros Hid.
    assert (Hnoconv : conversation (session_state w) = None).
    { destruct (conversation (session_state w)) as [c|] eqn:Hc; [|done].
      destruct (Hsync c Hc) as (u & Hu & Hne & _).
      destruct Hid as [Hid|Hid]; rewrite Hid in Hu; [discriminate|].
      injection Hu as <-. discriminate. }
    destruct (str_bool (text_input ui)) eqn:Hname.
    - destruct (accepted (text_input ui)) eqn:Hacc.
      + rewrite (main_identify ui w Hid Hname Hacc).
        match goal with |- context [main ui ?x] => set (w0 := x) end.
        apply (main_in_sync_identified ui w0 (text_input ui) eq_refl Hname).
        intros c1 Hc1. simpl in Hc1. injection Hc1 as <-.
        exists (text_input ui). split; [done|]. split; [exact Hname|].
        by rewrite get_conversation_eq, Hacc.
      + rewrite (main_refused_eq ui w Hid Hname Hacc).
        intros c1 Hc1. simpl in Hc1. congruence.
    - rewrite (main_stop_eq ui w Hid Hname).
      intros c1 Hc1. simpl in Hc1. congruence. }
  destruct (user_id (session_state w)) as [u|] eqn:Hu; [|by apply Hunid; left].
  destruct (str_bool u) eqn:Hnonempty.
  - by apply (main_in_sync_identified ui w u).
  - apply str_bool_false in Hnonempty as ->. by apply Hunid; right.
Qed.

(** X17: a session keeps its conversation equal to the stored one: if the
    conversation loaded in the session, when there is one, belongs to an
    identifier that is not empty and is what a read of the store returns for
    it, then the same holds after any series of runs, so that what the
    session shows is what the store holds and a conversation is only ever
    loaded under an identifier the client takes. *)
Theorem session_in_sync (uis : list UI) (w : World) :
  in_sync w -> in_sync (run_session uis w).
Proof.
  revert w; induction uis as [|ui uis IH]; intros w Hsync; simpl.
  - exact Hsync.
  - apply IH. by apply main_in_sync.
Qed.

Lemma session_in_sync_witness :
  in_sync Sample.world /\
  in_sync (run_session [Sample.ui_name "Sam";
                        Sample.ui_send "user_input_0" "I feel stuck";
                        Sample.ui_idle] Sample.world).
Proof.
  assert (H : in_sync Sample.world) by (intros c Hc; discriminate Hc).
  split; [exact H|]. exact (session_in_sync _ Sample.world H).
Defined.

Lemma main_identity (ui : UI) (w : World) (u : string) :
  user_id (session_state w) = Some u ->
  str_bool u = true ->
  user_id (session_state (snd (main ui w))) = Some u
  /\ (forall u', u' <> u -> db (snd (main ui w)) !! u' = db w !! u').
Proof.
  intros Hu Hnonempty.
  destruct (conversation (session_state w)) as [c|] eqn:Hc.
  - destruct (main_identified_effect ui w u c Hu Hnonempty Hc)
      as (l & r & _ & _ & _ & Hu' & _ & Hdb).
    split; [exact Hu'|]. intros u' Hne. rewrite Hdb.
    destruct l; [done|].
    rewrite update_conversation_messages_eq.
    destruct (accepted u); simpl; [|done]. by apply lookup_insert_ne.
  - by rewrite (main_no_conversation_eq ui w u Hu Hnonempty Hc).
Qed.

(** X18: once a session has an identifier that is not empty it keeps it for
    all its runs, and it writes to the record of that identifier only: the
    records of the other identifiers are never touched. *)
Theorem session_own_record (uis : list UI) (w : World) (u : string) :
  user_id (session_state w) = Some u ->
  str_bool u = true ->
  user_id (session_state (run_session uis w)) = Some u
  /\ (forall u', u' <> u -> db (run_session uis w) !! u' = db w !! u').
Proof.
  revert w; induction uis as [|ui uis IH]; intros w Hu Hnonempty; simpl.
  - by split.
  - destruct (main_identity ui w u Hu Hnonempty) as [Hu1 Hdb1].
    destruct (IH _ Hu1 Hnonempty) as [Hu2 Hdb2].
    split; [exact Hu2|]. intros u' Hne. by rewrite Hdb2, Hdb1.
Qed.

Lemma session_own_record_witness :
  user_id (session_state Sample.world_waiting) = Some "Sam" /\
  str_bool "Sam" = true /\
  user_id (session_state
    (run_session [Sample.ui_idle; Sample.ui_send "user_input_1" "more"]
       Sample.world_waiting)) = Some "Sam" /\
  (forall u', u' <> "Sam" ->
     db (run_session [Sample.ui_idle; Sample.ui_send "user_input_1" "more"]
           Sample.world_waiting) !! u' = db Sample.world_waiting !! u').
Proof.
  split; [reflexivity|]. split; [reflexivity|].
  exact (session_own_record _ Sample.world_waiting "Sam" eq_refl eq_refl).
Defined.

(** X19: a run sends at most one request, so a session of [n] runs adds at
    most [n] requests to the log. *)
Theorem session_requests_bounded (uis : list UI) (w : World) :
  exists r,
    requests (run_session uis w) = requests w ++ r
    /\ (length r <= length uis)%nat.
Proof.
  revert w; induction uis as [|ui uis IH]; intros w; simpl.
  - exists []. rewrite app_nil_r. split; [done|simpl; lia].
  - destruct (main_effect ui w) as (u & l & r1 & _ & Hr1 & Hreq1 & _).
    destruct (IH (snd (main ui w))) as (r2 & Hreq2 & Hr2).
    exists (r1 ++ r2). split.
    + by rewrite Hreq2, Hreq1, app_assoc.
    + rewrite length_app. lia.
Qed.
